(** * The COVID-19 dashboard's data transform ([load_data] of app.py)

    [load_data] reads three wide tables (confirmed, deaths, recovered),
    melts each of them to a long table over the date labels of the confirmed
    table, converts the labels to timestamps, left-joins deaths and recovered
    onto confirmed, fills missing counts with 0, sums per (country, date),
    and derives the columns Active and New Cases.

    The embedding follows the function statement by statement.  What the
    pandas calls do is written out as list functions:
    - a cell that pandas holds as NaN is [None];
    - counts are integers ([Z]) and coordinates are rationals ([Q]): the
      arithmetic of the model is exact, the rounding of float64 and the
      range of int64 are not part of it;
    - [pd.to_datetime] is a parameter of the development: a partial function
      from a label to a timestamp, [None] where pandas raises;
    - the column Province/State of the aggregated frame (dropped or
      concatenated by [sum], depending on the pandas version) is not carried
      into the output record; no statement below reads it. *)

From Stdlib Require Import List ZArith QArith Bool String Ascii Lia.
From Stdlib Require Import Sorted Permutation.
Import ListNotations.

Local Open Scope Z_scope.

(** ** Errors *)

Inductive error : Type :=
| KeyError     (* melt: a value_vars label is not a column of the frame *)
| ParseError.  (* to_datetime: a label is not a date *)

Inductive result (A : Type) : Type :=
| Ok (a : A)
| Raise (e : error).

Arguments Ok {A} a.
Arguments Raise {A} e.

Definition bind {A B : Type} (m : result A) (k : A -> result B) : result B :=
  match m with
  | Ok a => k a
  | Raise e => Raise e
  end.

Notation "x <- m ;; k" := (bind m (fun x => k))
  (at level 61, m at next level, right associativity).

(** ** Data model *)

Definition Timestamp : Type := Z.

(** The four identifier columns of a raw row.  The region column can be
    missing in a CSV line as any other cell can. *)
Record Ident : Type := mkIdent {
  Province_State : option string;
  Country_Region : option string;
  Lat : option Q;
  Long : option Q
}.

(** One line of a raw CSV: the identifiers, then one cell per date column. *)
Record RawRow : Type := mkRawRow {
  ident : Ident;
  cells : list (option Z)
}.

(** A raw frame: the labels of the columns after the first four
    ([df.columns[4:]]) and the rows.  [read_csv] hands out frames whose
    labels differ from one another. *)
Record DataFrame : Type := mkDataFrame {
  date_columns : list string;
  rows : list RawRow
}.

(** A row of a melted frame; [D] is [string] before the conversion of the
    Date column and [Timestamp] after it. *)
Record Melted (D : Type) : Type := mkMelted {
  m_ident : Ident;
  m_date : D;
  m_value : option Z
}.

Arguments mkMelted {D} _ _ _.
Arguments m_ident {D} _.
Arguments m_date {D} _.
Arguments m_value {D} _.

(** confirmed merged with deaths *)
Record Merged1 : Type := mkMerged1 {
  j_ident : Ident;
  j_date : Timestamp;
  j_confirmed : option Z;
  j_deaths : option Z
}.

(** ... merged with recovered: the rows of [full_data] before [fillna] *)
Record Merged2 : Type := mkMerged2 {
  k_ident : Ident;
  k_date : Timestamp;
  k_confirmed : option Z;
  k_deaths : option Z;
  k_recovered : option Z
}.

(** a row of [full_data] after [fillna(0)] *)
Record FullRow : Type := mkFullRow {
  f_ident : Ident;
  f_date : Timestamp;
  f_confirmed : Z;
  f_deaths : Z;
  f_recovered : Z
}.

(** a row of [groupby(['Country/Region', 'Date']).sum().reset_index()] *)
Record AggRow : Type := mkAggRow {
  a_region : string;
  a_date : Timestamp;
  a_lat : Q;
  a_long : Q;
  a_confirmed : Z;
  a_deaths : Z;
  a_recovered : Z
}.

(** a row of the returned [country_data] *)
Record CountryDay : Type := mkCountryDay {
  Region : string;
  Date : Timestamp;
  LatSum : Q;
  LongSum : Q;
  Confirmed : Z;
  Deaths : Z;
  Recovered : Z;
  Active : Z;
  New_Cases : Z
}.

(** ** Melt *)

Fixpoint column_position (label : string) (columns : list string) : option nat :=
  match columns with
  | [] => None
  | c :: cs =>
      if String.eqb label c then Some O
      else option_map S (column_position label cs)
  end.

(** A line shorter than the header is padded with NaN by [read_csv]. *)
Definition cell_at (k : nat) (row : RawRow) : option Z :=
  nth k (cells row) None.

(** The part of a melted frame that one value column contributes: one record
    per row of the frame, in row order. *)
Definition melt_column (df : DataFrame) (label : string)
  : result (list (Melted string)) :=
  match column_position label (date_columns df) with
  | None => Raise KeyError
  | Some k =>
      Ok (map (fun row => mkMelted (ident row) label (cell_at k row)) (rows df))
  end.

(** [df.melt(id_vars=[...], value_vars=value_vars, var_name='Date', ...)]:
    the value columns one after the other. *)
Fixpoint melt (df : DataFrame) (value_vars : list string)
  : result (list (Melted string)) :=
  match value_vars with
  | [] => Ok []
  | label :: rest =>
      col <- melt_column df label ;;
      more <- melt df rest ;;
      Ok (col ++ more)
  end.

(** ** Keys of the joins *)

Definition opt_eqb {A : Type} (eqb : A -> A -> bool) (x y : option A) : bool :=
  match x, y with
  | Some a, Some b => eqb a b
  | None, None => true   (* pandas joins a missing key with a missing key *)
  | _, _ => false
  end.

Definition ident_eqb (a b : Ident) : bool :=
  opt_eqb String.eqb (Province_State a) (Province_State b)
  && opt_eqb String.eqb (Country_Region a) (Country_Region b)
  && opt_eqb Qeq_bool (Lat a) (Lat b)
  && opt_eqb Qeq_bool (Long a) (Long b).

(** equality on
    ['Province/State', 'Country/Region', 'Date', 'Lat', 'Long'] *)
Definition same_key (i : Ident) (t : Timestamp) (r : Melted Timestamp) : bool :=
  ident_eqb i (m_ident r) && (t =? m_date r).

(** The values that a left join attaches to a left row with key [(i, t)]:
    those of the matching right rows in their order, and NaN once when
    there is none. *)
Definition joined_values (i : Ident) (t : Timestamp)
    (right : list (Melted Timestamp)) : list (option Z) :=
  match filter (same_key i t) right with
  | [] => [None]
  | hits => map m_value hits
  end.

Definition merge_deaths (confirmed_melted deaths_melted : list (Melted Timestamp))
  : list Merged1 :=
  flat_map
    (fun c => map (mkMerged1 (m_ident c) (m_date c) (m_value c))
                  (joined_values (m_ident c) (m_date c) deaths_melted))
    confirmed_melted.

Definition merge_recovered (left : list Merged1)
    (recovered_melted : list (Melted Timestamp)) : list Merged2 :=
  flat_map
    (fun j => map (mkMerged2 (j_ident j) (j_date j) (j_confirmed j) (j_deaths j))
                  (joined_values (j_ident j) (j_date j) recovered_melted))
    left.

(** ** fillna(0) on Confirmed, Deaths, Recovered *)

Definition fillna (v : option Z) : Z :=
  match v with
  | Some z => z
  | None => 0
  end.

Definition fill_row (k : Merged2) : FullRow :=
  mkFullRow (k_ident k) (k_date k)
            (fillna (k_confirmed k)) (fillna (k_deaths k)) (fillna (k_recovered k)).

(** ** groupby(['Country/Region', 'Date']).sum().reset_index() *)

(** Order of the group keys: by region (strings compare as in Python, code
    unit after code unit), then by date. *)
Definition key_compare (r1 : string) (t1 : Timestamp)
    (r2 : string) (t2 : Timestamp) : comparison :=
  match String.compare r1 r2 with
  | Eq => Z.compare t1 t2
  | c => c
  end.

(** [sum] skips NaN; a group of NaN only sums to 0. *)
Definition skipna (q : option Q) : Q :=
  match q with
  | Some x => x
  | None => 0%Q
  end.

Definition empty_group (region : string) (t : Timestamp) : AggRow :=
  mkAggRow region t 0%Q 0%Q 0 0 0.

(** One more row in the sums of its group: every numeric column that is not
    a key is summed, Lat and Long with the counts. *)
Definition add_row (g : AggRow) (f : FullRow) : AggRow :=
  mkAggRow (a_region g) (a_date g)
           (a_lat g + skipna (Lat (f_ident f)))%Q
           (a_long g + skipna (Long (f_ident f)))%Q
           (a_confirmed g + f_confirmed f)
           (a_deaths g + f_deaths f)
           (a_recovered g + f_recovered f).

(** The groups are kept in key order ([sort=True]). *)
Fixpoint insert_group (region : string) (f : FullRow) (groups : list AggRow)
  : list AggRow :=
  match groups with
  | [] => [add_row (empty_group region (f_date f)) f]
  | g :: gs =>
      match key_compare region (f_date f) (a_region g) (a_date g) with
      | Lt => add_row (empty_group region (f_date f)) f :: g :: gs
      | Eq => add_row g f :: gs
      | Gt => g :: insert_group region f gs
      end
  end.

(** A row whose region is missing belongs to no group ([dropna=True]). *)
Definition accumulate (groups : list AggRow) (f : FullRow) : list AggRow :=
  match Country_Region (f_ident f) with
  | None => groups
  | Some region => insert_group region f groups
  end.

Definition groupby_sum (full : list FullRow) : list AggRow :=
  fold_left accumulate full [].

(** ** groupby('Country/Region')['Confirmed'].diff() *)

Definition same_region (a p : AggRow) : bool :=
  String.eqb (a_region p) (a_region a).

(** [seen] holds the rows above the current one, the nearest first: the
    difference is taken with the nearest row above that has the same
    region, and is NaN when there is none. *)
Fixpoint confirmed_diff (seen rows : list AggRow) : list (option Z) :=
  match rows with
  | [] => []
  | a :: rest =>
      option_map (fun p => a_confirmed a - a_confirmed p)
                 (find (same_region a) seen)
      :: confirmed_diff (a :: seen) rest
  end.

(** The two derived columns. *)
Definition derive (a : AggRow) (d : option Z) : CountryDay :=
  mkCountryDay (a_region a) (a_date a) (a_lat a) (a_long a)
               (a_confirmed a) (a_deaths a) (a_recovered a)
               (a_confirmed a - a_deaths a - a_recovered a)
               (fillna d).

Definition add_derived (country_data : list AggRow) : list CountryDay :=
  map (fun ad => derive (fst ad) (snd ad))
      (combine country_data (confirmed_diff [] country_data)).

(** ** The transform *)

Section Transform.

(** [pd.to_datetime] on one label of a Date column; [None] when it raises.
    The three Date columns hold the labels of the confirmed frame, so the
    three conversions read a label alike. *)
Variable to_datetime : string -> option Timestamp.

(** [frame['Date'] = pd.to_datetime(frame['Date'])], row after row *)
Fixpoint to_datetime_column (frame : list (Melted string))
  : result (list (Melted Timestamp)) :=
  match frame with
  | [] => Ok []
  | r :: rest =>
      match to_datetime (m_date r) with
      | None => Raise ParseError
      | Some t =>
          more <- to_datetime_column rest ;;
          Ok (mkMelted (m_ident r) t (m_value r) :: more)
      end
  end.

(** [load_data] up to and including the [fillna] of line 64. *)
Definition full_data (confirmed_df deaths_df recovered_df : DataFrame)
  : result (list FullRow) :=
  let dates := date_columns confirmed_df in
  confirmed_melted <- melt confirmed_df dates ;;
  deaths_melted <- melt deaths_df dates ;;
  recovered_melted <- melt recovered_df dates ;;
  confirmed_melted <- to_datetime_column confirmed_melted ;;
  deaths_melted <- to_datetime_column deaths_melted ;;
  recovered_melted <- to_datetime_column recovered_melted ;;
  let merged := merge_deaths confirmed_melted deaths_melted in
  let merged := merge_recovered merged recovered_melted in
  Ok (map fill_row merged).

(** A frame melted over [dates] with its Date column converted: what
    lines 27 to 48 make of each of the three frames. *)
Definition long_frame (dates : list string) (df : DataFrame)
  : result (list (Melted Timestamp)) :=
  melted <- melt df dates ;;
  to_datetime_column melted.

Definition load_data (confirmed_df deaths_df recovered_df : DataFrame)
  : result (list CountryDay) :=
  full <- full_data confirmed_df deaths_df recovered_df ;;
  let country_data := groupby_sum full in
  Ok (add_derived country_data).

(** ** The cache of line 16

    [@st.cache_data] keeps the table that a run returned and hands it out
    again on the next call; a run that raises leaves nothing behind. *)




End Transform.

(** ** A parser for the labels of the CSSE files

    The labels of the date columns are written M/D/YY.  [mdy_to_datetime]
    reads such a label as the number of days since 1970-01-01; it is the
    instance of [to_datetime] that the examples run on. *)

Definition digit_of (c : ascii) : option Z :=
  let n := Z.of_N (N_of_ascii c) in
  if (48 <=? n) && (n <=? 57) then Some (n - 48) else None.

Fixpoint digits (s : string) (acc : Z) : option Z :=
  match s with
  | EmptyString => Some acc
  | String c rest =>
      match digit_of c with
      | Some d => digits rest (10 * acc + d)
      | None => None
      end
  end.

Definition number (s : string) : option Z :=
  match s with
  | EmptyString => None
  | _ => digits s 0
  end.

(** the fields between the slashes *)
Fixpoint fields (s : string) (field : string) : list string :=
  match s with
  | EmptyString => [field]
  | String c rest =>
      if Ascii.eqb c "/"%char then field :: fields rest EmptyString
      else fields rest (field ++ String c EmptyString)%string
  end.

Definition leap (y : Z) : bool :=
  ((y mod 4 =? 0) && negb (y mod 100 =? 0)) || (y mod 400 =? 0).

Definition days_in_month (y m : Z) : Z :=
  if m =? 2 then (if leap y then 29 else 28)
  else if (m =? 4) || (m =? 6) || (m =? 9) || (m =? 11) then 30
  else 31.

Definition days_from_civil (y m d : Z) : Z :=
  let y' := if m <=? 2 then y - 1 else y in
  let era := y' / 400 in
  let yoe := y' - era * 400 in
  let doy := (153 * (if 2 <? m then m - 3 else m + 9) + 2) / 5 + d - 1 in
  let doe := yoe * 365 + yoe / 4 - yoe / 100 + doy in
  era * 146097 + doe - 719468.

Definition mdy_to_datetime (label : string) : option Timestamp :=
  match map number (fields label EmptyString) with
  | [Some m; Some d; Some yy] =>
      let y := if yy <? 69 then 2000 + yy else 1900 + yy in
      if (1 <=? m) && (m <=? 12) && (1 <=? d) && (d <=? days_in_month y m)
         && (yy <? 100)
      then Some (days_from_civil y m d)
      else None
  | _ => None
  end.

(** * Vocabulary of the statements *)

Definition sumZ (l : list Z) : Z := fold_right Z.add 0 l.


(** the rows of [full_data] that belong to the group [(region, t)] *)
Definition in_group (region : string) (t : Timestamp) (f : FullRow) : bool :=
  opt_eqb String.eqb (Country_Region (f_ident f)) (Some region)
  && (f_date f =? t).

Definition group_rows (region : string) (t : Timestamp) (full : list FullRow)
  : list FullRow :=
  filter (in_group region t) full.

(** the rows of a long frame with a given region and date *)
Definition long_group (region : string) (t : Timestamp)
    (long : list (Melted Timestamp)) : list (Melted Timestamp) :=
  filter (fun x => opt_eqb String.eqb (Country_Region (m_ident x)) (Some region)
                   && (m_date x =? t)) long.

(** a key has at most one partner in the right frame of a join *)
Definition at_most_one_partner (i : Ident) (t : Timestamp)
    (right : list (Melted Timestamp)) : Prop :=
  (List.length (filter (same_key i t) right) <= 1)%nat.

(** the aggregated row with a given key *)
Definition has_key (region : string) (t : Timestamp) (g : AggRow) : bool :=
  String.eqb (a_region g) region && (a_date g =? t).

(** the sums of a group, taken row after row from 0 *)
Definition agg_of (region : string) (t : Timestamp) (group : list FullRow)
  : option AggRow :=
  match group with
  | [] => None
  | _ => Some (fold_left add_row group (empty_group region t))
  end.

(** strict key order on aggregated rows and on rows of the output *)
Definition agg_lt (a b : AggRow) : Prop :=
  key_compare (a_region a) (a_date a) (a_region b) (a_date b) = Lt.

(** region first, then date *)
Definition row_lt (a b : CountryDay) : Prop :=
  String.compare (Region a) (Region b) = Lt
  \/ (Region a = Region b /\ Date a < Date b).

(** the aggregated row that an output row was derived from *)
Definition aggregated (o : CountryDay) : AggRow :=
  mkAggRow (Region o) (Date o) (LatSum o) (LongSum o)
           (Confirmed o) (Deaths o) (Recovered o).

(** ** The contract of the three frames *)

Section Contract.

Variable to_datetime : string -> option Timestamp.

Definition has_column (df : DataFrame) (label : string) : bool :=
  existsb (String.eqb label) (date_columns df).

Definition is_date (label : string) : bool :=
  match to_datetime label with
  | Some _ => true
  | None => false
  end.

(** the dates that the labels denote *)
Definition parsed_dates (labels : list string) : list Timestamp :=
  flat_map (fun label => match to_datetime label with
                         | Some t => [t]
                         | None => []
                         end) labels.

Fixpoint distinct (l : list Timestamp) : bool :=
  match l with
  | [] => true
  | t :: rest => negb (existsb (Z.eqb t) rest) && distinct rest
  end.

(** What [load_data] needs in order not to raise: the date labels of the
    confirmed frame are columns of the other two frames and are dates. *)
Definition dates_usable (c d r : DataFrame) : bool :=
  forallb (fun label => has_column d label && has_column r label
                        && is_date label)
          (date_columns c).

Definition same_columns (a b : DataFrame) : bool :=
  forallb (has_column b) (date_columns a)
  && forallb (has_column a) (date_columns b).

Definition has_row_key (df : DataFrame) (i : Ident) : bool :=
  existsb (fun row => ident_eqb i (ident row)) (rows df).

Definition same_row_keys (a b : DataFrame) : bool :=
  forallb (fun row => has_row_key b (ident row)) (rows a)
  && forallb (fun row => has_row_key a (ident row)) (rows b).

(** The contract of the transform: the three frames have the same columns,
    one per date, every label a date, and the same row keys. *)
Definition contract (c d r : DataFrame) : bool :=
  same_columns c d && same_columns c r
  && forallb is_date (date_columns c)
  && distinct (parsed_dates (date_columns c))
  && same_row_keys c d && same_row_keys c r.

(** [(region, t)] is a pair of the confirmed frame: a row has the region
    and a date column denotes [t]. *)
Definition confirmed_pair (c : DataFrame) (region : string) (t : Timestamp)
  : Prop :=
  exists row label,
    In row (rows c) /\ Country_Region (ident row) = Some region
    /\ In label (date_columns c) /\ to_datetime label = Some t.

Definition region_present (c : DataFrame) (region : string) : Prop :=
  exists row, In row (rows c) /\ Country_Region (ident row) = Some region.

End Contract.

(** the rows of the output with a given key, with a given region *)
Definition rows_with_key (region : string) (t : Timestamp)
    (out : list CountryDay) : list CountryDay :=
  filter (fun o => String.eqb (Region o) region && (Date o =? t)) out.

Definition rows_of_region (region : string) (out : list CountryDay)
  : list CountryDay :=
  filter (fun o => String.eqb (Region o) region) out.

(** ** A small data set

    Two provinces of one country and a country without provinces, over two
    days.  In [deaths_without_ontario] a row key of the confirmed frame is
    missing and there is a third date column. *)

Definition alberta : Ident :=
  mkIdent (Some "Alberta"%string) (Some "Canada"%string)
          (Some (539333 # 10000)%Q) (Some (-1165765 # 10000)%Q).

Definition ontario : Ident :=
  mkIdent (Some "Ontario"%string) (Some "Canada"%string)
          (Some (512538 # 10000)%Q) (Some (-853232 # 10000)%Q).

Definition austria : Ident :=
  mkIdent None (Some "Austria"%string)
          (Some (475162 # 10000)%Q) (Some (145501 # 10000)%Q).

Definition two_days : list string := ["1/22/20"%string; "1/23/20"%string].

Definition sample_confirmed : DataFrame :=
  mkDataFrame two_days
    [ mkRawRow alberta [Some 5; Some 7];
      mkRawRow ontario [Some 3; Some 2];
      mkRawRow austria [Some 4; Some 3] ].

Definition sample_deaths : DataFrame :=
  mkDataFrame two_days
    [ mkRawRow alberta [Some 0; Some 1];
      mkRawRow ontario [Some 1; Some 1];
      mkRawRow austria [Some 0; Some 0] ].

Definition sample_recovered : DataFrame :=
  mkDataFrame two_days
    [ mkRawRow alberta [Some 0; Some 2];
      mkRawRow ontario [Some 0; Some 0];
      mkRawRow austria [Some 1; Some 5] ].

Definition deaths_without_ontario : DataFrame :=
  mkDataFrame (two_days ++ ["1/24/20"%string])
    [ mkRawRow alberta [Some 0; Some 1; Some 6];
      mkRawRow austria [Some 0; Some 0; Some 0] ].

(** the row key of Alberta twice *)
Definition deaths_alberta_twice : DataFrame :=
  mkDataFrame two_days
    [ mkRawRow alberta [Some 0; Some 1];
      mkRawRow alberta [Some 0; Some 0];
      mkRawRow ontario [Some 1; Some 1];
      mkRawRow austria [Some 0; Some 0] ].

(** a file that has the header line only *)
Definition header_only : DataFrame := mkDataFrame two_days [].

Definition rows_or_nil {A : Type} (m : result (list A)) : list A :=
  match m with
  | Ok l => l
  | Raise _ => []
  end.

Definition sample_full : list FullRow :=
  Eval vm_compute in
    rows_or_nil (full_data mdy_to_datetime
                   sample_confirmed sample_deaths sample_recovered).

Definition sample_out : list CountryDay :=
  Eval vm_compute in
    rows_or_nil (load_data mdy_to_datetime
                   sample_confirmed sample_deaths sample_recovered).

Definition no_row : CountryDay :=
  mkCountryDay EmptyString 0 0%Q 0%Q 0 0 0 0 0.

(** the rows of the sample output, in its order *)
Definition austria_day1 : CountryDay := nth 0 sample_out no_row.
Definition austria_day2 : CountryDay := nth 1 sample_out no_row.
Definition canada_day1 : CountryDay := nth 2 sample_out no_row.
Definition canada_day2 : CountryDay := nth 3 sample_out no_row.

(** The reading of C10 that the header-only file refutes: the dates of the
    output are exactly the dates that the labels of the confirmed frame
    denote. *)
Definition output_dates_exactly_labels
    (to_datetime : string -> option Timestamp) (c d r : DataFrame) : Prop :=
  forall out, load_data to_datetime c d r = Ok out ->
  forall t, (exists o, In o out /\ Date o = t)
            <-> In t (parsed_dates to_datetime (date_columns c)).

(** * The page (lines 76 to 129)

    The script below [load_data]: the list of countries, the selection
    (India unless the user picks another entry), the rows of the selected
    country, the figures of its latest date, the 14-day rolling mean of New
    Cases and the raw table, newest date first.  What is drawn and how the
    numbers are written is left out; the model keeps the values that are
    handed to the widgets. *)

Inductive page_error : Type :=
| ValueError   (* list.index: the value is not in the list *)
| IndexError.  (* iloc[0]: the selection has no row *)

Inductive rendered (A : Type) : Type :=
| Shown (a : A)
| Fails (e : page_error).

Arguments Shown {A} a.
Arguments Fails {A} e.

Definition and_then {A B : Type} (m : rendered A) (k : A -> rendered B)
  : rendered B :=
  match m with
  | Shown a => k a
  | Fails e => Fails e
  end.

Notation "x <~ m ;; k" := (and_then m (fun x => k))
  (at level 61, m at next level, right associativity).

(** [Series.unique()]: the values in the order of their first appearance *)
Fixpoint unique_from (seen : list string) (values : list string) : list string :=
  match values with
  | [] => []
  | v :: rest =>
      if existsb (String.eqb v) seen then unique_from seen rest
      else v :: unique_from (v :: seen) rest
  end.

Definition unique (values : list string) : list string :=
  unique_from [] values.

(** [data['Country/Region'].unique()] *)
Definition country_list (data : list CountryDay) : list string :=
  unique (map Region data).

(** [list(...).index(value)]: the first position of the value *)
Fixpoint list_index (value : string) (l : list string) : rendered nat :=
  match l with
  | [] => Fails ValueError
  | x :: rest =>
      if String.eqb x value then Shown O
      else k <~ list_index value rest ;; Shown (S k)
  end.

(** [st.sidebar.selectbox(label, options, index=index)]: the entry that the
    user picked, the entry at [index] as long as the user picked none *)
Definition selectbox (options : list string) (index : nat) (pick : option nat)
  : string :=
  nth (match pick with Some k => k | None => index end) options EmptyString.

(** [data[data['Country/Region'] == selected_country]] *)
Definition country_df (data : list CountryDay) (selected_country : string)
  : list CountryDay :=
  filter (fun o => String.eqb (Region o) selected_country) data.

(** [country_df['Date'].max()]; NaT on a frame without rows *)
Definition date_max (frame : list CountryDay) : option Timestamp :=
  match frame with
  | [] => None
  | o :: rest => Some (fold_left Z.max (map Date rest) (Date o))
  end.

(** [country_df[country_df['Date'] == country_df['Date'].max()]] *)
Definition latest_data (frame : list CountryDay) : list CountryDay :=
  match date_max frame with
  | None => []
  | Some latest => filter (fun o => Date o =? latest) frame
  end.

(** [column.iloc[0]] *)
Definition iloc0 {A : Type} (column : list A) : rendered A :=
  match column with
  | [] => Fails IndexError
  | a :: _ => Shown a
  end.

(** [series.rolling(window=window).mean()]: NaN until the window is full,
    then the mean of the last [window] values *)
Definition rolling_mean (window : nat) (values : list Z) : list (option Q) :=
  map (fun i =>
         if (S i <? window)%nat then None
         else Some (inject_Z (sumZ (firstn window
                                           (skipn (S i - window) values)))
                    / inject_Z (Z.of_nat window))%Q)
      (seq 0 (List.length values)).

(** [frame.sort_values('Date', ascending=False)].  Where two rows have the
    same date the order that pandas gives them is not fixed; the model puts
    the later row first. *)
Fixpoint insert_descending (o : CountryDay) (sorted : list CountryDay)
  : list CountryDay :=
  match sorted with
  | [] => [o]
  | x :: rest =>
      if Date x <? Date o then o :: x :: rest
      else x :: insert_descending o rest
  end.

Definition sort_values_date_descending (frame : list CountryDay)
  : list CountryDay :=
  fold_right insert_descending [] frame.

(** the four tiles *)
Record Metrics : Type := mkMetrics {
  total_confirmed : Z;
  total_deaths : Z;
  total_recovered : Z;
  total_active : Z
}.

Record Page : Type := mkPage {
  selected_country : string;
  metrics : Metrics;
  charted : list CountryDay;        (* the frame behind the two figures *)
  rolling_avg : list (option Q);    (* the line over the bars *)
  raw_data : option (list CountryDay)
}.

(** Lines 80 to 129 on the table that [load_data] returned; [pick] is the
    entry of the select box that the user chose, [show_raw] the check box. *)
Definition page (data : list CountryDay) (pick : option nat) (show_raw : bool)
  : rendered Page :=
  let countries := country_list data in
  india <~ list_index "India" countries ;;
  let selected := selectbox countries india pick in
  let frame := country_df data selected in
  let latest := latest_data frame in
  confirmed <~ iloc0 (map Confirmed latest) ;;
  deaths <~ iloc0 (map Deaths latest) ;;
  recovered <~ iloc0 (map Recovered latest) ;;
  active <~ iloc0 (map Active latest) ;;
  Shown (mkPage selected
                (mkMetrics confirmed deaths recovered active)
                frame
                (rolling_mean 14 (map New_Cases frame))
                (if show_raw then Some (sort_values_date_descending frame)
                 else None)).

(** ** Vocabulary for what the transform raises and what it ignores *)

(** a date label of the confirmed frame is no column of the deaths or of
    the recovered frame *)
Definition missing_label (c d r : DataFrame) : bool :=
  existsb (fun label => negb (has_column d label && has_column r label))
          (date_columns c).

Definition has_rows (df : DataFrame) : bool :=
  match rows df with
  | [] => false
  | _ :: _ => true
  end.

(** a date label of the confirmed frame that is not a date *)
Definition unreadable_label (to_datetime : string -> option Timestamp)
    (c : DataFrame) : bool :=
  existsb (fun label => negb (is_date to_datetime label)) (date_columns c).

(** the rows that [melt] returns when it returns *)
Definition melted_column (df : DataFrame) (label : string)
  : list (Melted string) :=
  map (fun row =>
         mkMelted (ident row) label
           (cell_at match column_position label (date_columns df) with
                    | Some k => k
                    | None => O
                    end row))
      (rows df).

Definition melted (df : DataFrame) (value_vars : list string)
  : list (Melted string) :=
  flat_map (melted_column df) value_vars.

(** the rows that the conversion of the Date column returns when it returns *)
Definition converted (to_datetime : string -> option Timestamp)
    (frame : list (Melted string)) : list (Melted Timestamp) :=
  map (fun m => mkMelted (m_ident m)
                  match to_datetime (m_date m) with
                  | Some t => t
                  | None => 0
                  end
                  (m_value m))
      frame.



Definition has_region (i : Ident) : bool :=
  match Country_Region i with
  | Some _ => true
  | None => false
  end.

(** region after region, alphabetically *)
Definition string_lt (s1 s2 : string) : Prop := String.compare s1 s2 = Lt.

Definition string_le (s1 s2 : string) : Prop := s1 = s2 \/ string_lt s1 s2.

(** dates going up *)
Definition date_lt (a b : CountryDay) : Prop := Date a < Date b.


(** ** A second data set: fifteen days, India

    The confirmed frame has a row without a region; the deaths frame has a
    row whose key the confirmed frame does not have. *)

Definition india : Ident :=
  mkIdent None (Some "India"%string)
          (Some (205937 # 10000)%Q) (Some (789629 # 10000)%Q).

Definition nowhere : Ident := mkIdent None None None None.

Definition diamond_princess : Ident :=
  mkIdent (Some "Diamond Princess"%string) (Some "Canada"%string)
          (Some 0%Q) (Some 0%Q).

Definition fifteen_days : list string :=
    ["1/22/20"%string;
     "1/23/20"%string;
     "1/24/20"%string;
     "1/25/20"%string;
     "1/26/20"%string;
     "1/27/20"%string;
     "1/28/20"%string;
     "1/29/20"%string;
     "1/30/20"%string;
     "1/31/20"%string;
     "2/1/20"%string;
     "2/2/20"%string;
     "2/3/20"%string;
     "2/4/20"%string;
     "2/5/20"%string].

Definition world_confirmed : DataFrame :=
  mkDataFrame fifteen_days
    [ mkRawRow austria [Some 1; Some 1; Some 2; Some 2; Some 3; Some 5; Some 5; Some 8; Some 8; Some 9; Some 12; Some 12; Some 15; Some 14; Some 20];
      mkRawRow nowhere [Some 9; Some 9; Some 9; Some 9; Some 9; Some 9; Some 9; Some 9; Some 9; Some 9; Some 9; Some 9; Some 9; Some 9; Some 9];
      mkRawRow india [Some 0; Some 0; Some 0; Some 0; Some 0; Some 0; Some 0; Some 0; Some 1; Some 1; Some 1; Some 2; Some 3; Some 3; Some 3] ].

Definition world_deaths : DataFrame :=
  mkDataFrame fifteen_days
    [ mkRawRow austria [Some 0; Some 0; Some 0; Some 0; Some 0; Some 0; Some 0; Some 0; Some 0; Some 0; Some 1; Some 1; Some 1; Some 1; Some 1];
      mkRawRow diamond_princess [Some 1; Some 1; Some 1; Some 1; Some 1; Some 1; Some 1; Some 1; Some 1; Some 1; Some 1; Some 1; Some 1; Some 1; Some 1];
      mkRawRow india [Some 0; Some 0; Some 0; Some 0; Some 0; Some 0; Some 0; Some 0; Some 0; Some 0; Some 0; Some 0; Some 0; Some 0; Some 0] ].

Definition world_recovered : DataFrame :=
  mkDataFrame fifteen_days
    [ mkRawRow austria [Some 0; Some 0; Some 0; Some 0; Some 1; Some 1; Some 1; Some 2; Some 2; Some 3; Some 3; Some 4; Some 4; Some 6; Some 6];
      mkRawRow india [Some 0; Some 0; Some 0; Some 0; Some 0; Some 0; Some 0; Some 0; Some 0; Some 0; Some 0; Some 0; Some 0; Some 1; Some 1] ].


Definition world_out : list CountryDay :=
  Eval vm_compute in
    rows_or_nil (load_data mdy_to_datetime
                   world_confirmed world_deaths world_recovered).

(** the long frames of the small data set *)
Definition sample_cm : list (Melted Timestamp) :=
  Eval vm_compute in
    rows_or_nil (long_frame mdy_to_datetime two_days sample_confirmed).

Definition sample_dm : list (Melted Timestamp) :=
  Eval vm_compute in
    rows_or_nil (long_frame mdy_to_datetime two_days sample_deaths).

Definition sample_rm : list (Melted Timestamp) :=
  Eval vm_compute in
    rows_or_nil (long_frame mdy_to_datetime two_days sample_recovered).

(** * The order of the group keys *)

Lemma ascii_compare_refl (a : ascii) : Ascii.compare a a = Eq.
Proof. unfold Ascii.compare. apply N.compare_refl. Qed.

Lemma ascii_compare_lt_trans (a b c : ascii) :
  Ascii.compare a b = Lt -> Ascii.compare b c = Lt -> Ascii.compare a c = Lt.
Proof.
  unfold Ascii.compare. rewrite !N.compare_lt_iff. apply N.lt_trans.
Qed.

Lemma string_compare_refl (s : string) : String.compare s s = Eq.
Proof.
  induction s as [|a s IH]; simpl; [reflexivity|].
  now rewrite ascii_compare_refl.
Qed.

Lemma string_compare_lt_trans (s1 s2 s3 : string) :
  String.compare s1 s2 = Lt -> String.compare s2 s3 = Lt ->
  String.compare s1 s3 = Lt.
Proof.
  revert s2 s3.
  induction s1 as [|a s1 IH]; intros [|b s2] [|c s3]; simpl;
    try discriminate; try reflexivity.
  destruct (Ascii.compare a b) eqn:Hab; try discriminate.
  - apply Ascii.compare_eq_iff in Hab. subst b.
    destruct (Ascii.compare a c); try discriminate; [apply IH | reflexivity].
  - intros _.
    destruct (Ascii.compare b c) eqn:Hbc; try discriminate.
    + apply Ascii.compare_eq_iff in Hbc. subst c. now rewrite Hab.
    + intros _. now rewrite (ascii_compare_lt_trans _ _ _ Hab Hbc).
Qed.

Lemma string_compare_gt_lt (s1 s2 : string) :
  String.compare s1 s2 = Gt -> String.compare s2 s1 = Lt.
Proof.
  intros H. rewrite String.compare_antisym, H. reflexivity.
Qed.

Lemma key_compare_refl r t : key_compare r t r t = Eq.
Proof.
  unfold key_compare. rewrite string_compare_refl. apply Z.compare_refl.
Qed.

Lemma key_compare_eq r1 t1 r2 t2 :
  key_compare r1 t1 r2 t2 = Eq -> r1 = r2 /\ t1 = t2.
Proof.
  unfold key_compare.
  destruct (String.compare r1 r2) eqn:Hr; try discriminate.
  intros Ht. split; [now apply String.compare_eq_iff | now apply Z.compare_eq].
Qed.

Lemma key_compare_gt_lt r1 t1 r2 t2 :
  key_compare r1 t1 r2 t2 = Gt -> key_compare r2 t2 r1 t1 = Lt.
Proof.
  unfold key_compare. rewrite (String.compare_antisym r1 r2).
  destruct (String.compare r2 r1); simpl; try discriminate; try reflexivity.
  rewrite (Z.compare_antisym t1 t2).
  destruct (t1 ?= t2); simpl; try discriminate; reflexivity.
Qed.

Lemma key_compare_lt_trans r1 t1 r2 t2 r3 t3 :
  key_compare r1 t1 r2 t2 = Lt -> key_compare r2 t2 r3 t3 = Lt ->
  key_compare r1 t1 r3 t3 = Lt.
Proof.
  unfold key_compare.
  destruct (String.compare r1 r2) eqn:H12; try discriminate.
  - apply String.compare_eq_iff in H12. subst r2.
    destruct (String.compare r1 r3); try discriminate; [|reflexivity].
    rewrite !Z.compare_lt_iff. apply Z.lt_trans.
  - intros _.
    destruct (String.compare r2 r3) eqn:H23; try discriminate.
    + apply String.compare_eq_iff in H23. subst r3. now rewrite H12.
    + intros _. now rewrite (string_compare_lt_trans _ _ _ H12 H23).
Qed.

(** Within one region the key order is the order of the dates. *)
Lemma key_compare_same_region r t1 t2 :
  key_compare r t1 r t2 = Lt <-> t1 < t2.
Proof.
  unfold key_compare. rewrite string_compare_refl. apply Z.compare_lt_iff.
Qed.

(** A key between two keys of one region has that region. *)
Lemma key_compare_squeeze r t1 t2 r' t' :
  key_compare r t1 r' t' = Lt -> key_compare r' t' r t2 = Lt -> r' = r.
Proof.
  unfold key_compare.
  destruct (String.compare r r') eqn:H1; try discriminate.
  - intros _ _. symmetry. now apply String.compare_eq_iff.
  - intros _.
    destruct (String.compare r' r) eqn:H2; try discriminate.
    + intros _. now apply String.compare_eq_iff.
    + intros _. pose proof (string_compare_lt_trans _ _ _ H1 H2) as H.
      rewrite string_compare_refl in H. discriminate.
Qed.

Lemma agg_lt_trans a b c : agg_lt a b -> agg_lt b c -> agg_lt a c.
Proof. unfold agg_lt. apply key_compare_lt_trans. Qed.

Lemma agg_lt_irrefl a : ~ agg_lt a a.
Proof. unfold agg_lt. rewrite key_compare_refl. discriminate. Qed.

(** * The aggregation *)

Lemma find_all_false {A : Type} (p : A -> bool) (l : list A) :
  (forall x, In x l -> p x = false) -> find p l = None.
Proof.
  induction l as [|a l IH]; simpl; intros H; [reflexivity|].
  rewrite (H a) by auto. apply IH. auto.
Qed.

Lemma has_key_true region t g :
  has_key region t g = true <-> a_region g = region /\ a_date g = t.
Proof.
  unfold has_key. rewrite andb_true_iff, String.eqb_eq, Z.eqb_eq. tauto.
Qed.

Lemma has_key_self g : has_key (a_region g) (a_date g) g = true.
Proof. now apply has_key_true. Qed.

Lemma has_key_lt region t g :
  key_compare region t (a_region g) (a_date g) <> Eq ->
  has_key region t g = false.
Proof.
  intros H. destruct (has_key region t g) eqn:E; [|reflexivity].
  apply has_key_true in E. destruct E as [<- <-].
  now rewrite key_compare_refl in H.
Qed.

Lemma insert_group_Forall (P : AggRow -> Prop) region f groups :
  (forall g, P g -> P (add_row g f)) ->
  P (add_row (empty_group region (f_date f)) f) ->
  Forall P groups -> Forall P (insert_group region f groups).
Proof.
  intros Hadd Hnew. induction 1 as [|g gs Hg Hgs IH]; simpl.
  - auto.
  - destruct (key_compare region (f_date f) (a_region g) (a_date g)); auto.
Qed.

Lemma insert_group_sorted region f groups :
  StronglySorted agg_lt groups ->
  StronglySorted agg_lt (insert_group region f groups).
Proof.
  induction 1 as [|g gs Hs IH Hall]; simpl.
  - repeat constructor.
  - destruct (key_compare region (f_date f) (a_region g) (a_date g)) eqn:Hc.
    + constructor; [assumption|]. exact Hall.
    + constructor; [now constructor|].
      constructor; [exact Hc|].
      eapply Forall_impl; [|exact Hall].
      intros x Hx. unfold agg_lt in *. simpl.
      eapply key_compare_lt_trans; [exact Hc | exact Hx].
    + constructor; [assumption|].
      apply insert_group_Forall; auto.
      unfold agg_lt. simpl. now apply key_compare_gt_lt.
Qed.

Lemma accumulate_sorted groups f :
  StronglySorted agg_lt groups -> StronglySorted agg_lt (accumulate groups f).
Proof.
  unfold accumulate. destruct (Country_Region (f_ident f)); auto.
  apply insert_group_sorted.
Qed.

Lemma fold_accumulate_sorted full groups :
  StronglySorted agg_lt groups ->
  StronglySorted agg_lt (fold_left accumulate full groups).
Proof.
  revert groups. induction full as [|f full IH]; simpl; intros groups H; auto.
  apply IH. now apply accumulate_sorted.
Qed.

Lemma groupby_sum_sorted full : StronglySorted agg_lt (groupby_sum full).
Proof. apply fold_accumulate_sorted. constructor. Qed.

(** In a sorted list a row is the one that its key finds. *)
Lemma sorted_find_self groups g :
  StronglySorted agg_lt groups -> In g groups ->
  find (has_key (a_region g) (a_date g)) groups = Some g.
Proof.
  induction 1 as [|h hs Hs IH Hall]; simpl; [tauto|].
  intros [-> | Hin].
  - now rewrite has_key_self.
  - rewrite has_key_lt; [now apply IH|].
    rewrite Forall_forall in Hall. specialize (Hall _ Hin).
    intros E. unfold agg_lt in Hall. apply key_compare_eq in E. destruct E as [E1 E2].
    rewrite <- E1, <- E2, key_compare_refl in Hall. discriminate.
Qed.

(** the group of the inserted row, after the insertion *)
Lemma find_insert_group_same region f groups :
  StronglySorted agg_lt groups ->
  find (has_key region (f_date f)) (insert_group region f groups)
  = Some (add_row
            match find (has_key region (f_date f)) groups with
            | Some g => g
            | None => empty_group region (f_date f)
            end f).
Proof.
  induction 1 as [|g gs Hs IH Hall]; simpl.
  - rewrite (proj2 (has_key_true _ _ _)); simpl; auto.
  - destruct (key_compare region (f_date f) (a_region g) (a_date g)) eqn:Hc.
    + apply key_compare_eq in Hc. destruct Hc as [Hr Ht].
      simpl. rewrite !(proj2 (has_key_true _ _ _)); simpl; auto.
    + simpl. rewrite (proj2 (has_key_true _ _ _)); simpl; auto.
      rewrite has_key_lt by (rewrite Hc; discriminate).
      replace (find (has_key region (f_date f)) gs) with (@None AggRow);
        [reflexivity|].
      symmetry. apply find_all_false. intros x Hx.
      apply has_key_lt. rewrite Forall_forall in Hall.
      specialize (Hall _ Hx). unfold agg_lt in Hall.
      rewrite (key_compare_lt_trans _ _ _ _ _ _ Hc Hall). discriminate.
    + simpl. rewrite has_key_lt by (rewrite Hc; discriminate). exact IH.
Qed.

(** the other groups are left as they were *)
Lemma find_insert_group_other region f groups region' t' :
  has_key region' t' (add_row (empty_group region (f_date f)) f) = false ->
  find (has_key region' t') (insert_group region f groups)
  = find (has_key region' t') groups.
Proof.
  intros Hne. induction groups as [|g gs IH]; simpl.
  - now rewrite Hne.
  - destruct (key_compare region (f_date f) (a_region g) (a_date g)) eqn:Hc.
    + apply key_compare_eq in Hc. destruct Hc as [Hr Ht].
      simpl. unfold has_key in *. simpl in *. rewrite <- Hr, <- Ht, Hne.
      reflexivity.
    + simpl. now rewrite Hne.
    + simpl. now rewrite IH.
Qed.

Lemma groupby_sum_snoc full f :
  groupby_sum (full ++ [f]) = accumulate (groupby_sum full) f.
Proof. unfold groupby_sum. now rewrite fold_left_app. Qed.

Lemma group_rows_snoc region t full f :
  group_rows region t (full ++ [f])
  = group_rows region t full ++ (if in_group region t f then [f] else []).
Proof. unfold group_rows. rewrite filter_app. reflexivity. Qed.

Lemma agg_of_snoc region t group f :
  agg_of region t (group ++ [f])
  = Some (add_row match agg_of region t group with
                  | Some g => g
                  | None => empty_group region t
                  end f).
Proof.
  unfold agg_of. destruct group as [|x group]; [reflexivity|].
  change ((x :: group) ++ [f]) with (x :: (group ++ [f])).
  cbv beta iota. f_equal.
  change (x :: group ++ [f]) with ((x :: group) ++ [f]).
  now rewrite fold_left_app.
Qed.

(** Every aggregated row holds the sums of the rows of its group, and a key
    finds a row exactly when its group has rows. *)
Lemma find_groupby_sum region t full :
  find (has_key region t) (groupby_sum full)
  = agg_of region t (group_rows region t full).
Proof.
  induction full as [|f full IH] using rev_ind; [reflexivity|].
  rewrite groupby_sum_snoc, group_rows_snoc.
  unfold accumulate, in_group at 1.
  destruct (Country_Region (f_ident f)) as [rf|] eqn:Hreg; simpl opt_eqb.
  - destruct (String.eqb rf region && (f_date f =? t)) eqn:Hk.
    + apply andb_true_iff in Hk. destruct Hk as [Hr Ht].
      apply String.eqb_eq in Hr. apply Z.eqb_eq in Ht. subst rf t.
      rewrite find_insert_group_same by apply groupby_sum_sorted.
      rewrite IH, agg_of_snoc. reflexivity.
    + rewrite app_nil_r, find_insert_group_other; [exact IH|].
      unfold has_key. simpl. exact Hk.
  - simpl. rewrite app_nil_r. exact IH.
Qed.

Lemma in_groupby_sum g full :
  In g (groupby_sum full) <->
  agg_of (a_region g) (a_date g) (group_rows (a_region g) (a_date g) full)
  = Some g.
Proof.
  rewrite <- find_groupby_sum. split.
  - apply sorted_find_self, groupby_sum_sorted.
  - intros H. now apply find_some in H.
Qed.

(** the sums, column by column *)
Lemma fold_add_row_key group g :
  a_region (fold_left add_row group g) = a_region g
  /\ a_date (fold_left add_row group g) = a_date g.
Proof.
  revert g. induction group as [|f group IH]; simpl; intros g; [tauto|].
  destruct (IH (add_row g f)) as [-> ->]. simpl. tauto.
Qed.

Lemma fold_add_row_counts group g :
  a_confirmed (fold_left add_row group g)
    = a_confirmed g + sumZ (map f_confirmed group)
  /\ a_deaths (fold_left add_row group g)
    = a_deaths g + sumZ (map f_deaths group)
  /\ a_recovered (fold_left add_row group g)
    = a_recovered g + sumZ (map f_recovered group).
Proof.
  revert g. induction group as [|f group IH]; simpl; intros g; [lia|].
  destruct (IH (add_row g f)) as (-> & -> & ->). simpl. lia.
Qed.


(** * The derived columns *)

Lemma key_compare_lt_iff r1 t1 r2 t2 :
  key_compare r1 t1 r2 t2 = Lt <->
  String.compare r1 r2 = Lt \/ (r1 = r2 /\ t1 < t2).
Proof.
  unfold key_compare. destruct (String.compare r1 r2) eqn:Hr.
  - apply String.compare_eq_iff in Hr. rewrite Z.compare_lt_iff.
    split; [auto|]. intros [H|[_ H]]; [discriminate | exact H].
  - tauto.
  - split; [discriminate|]. intros [H|[H _]]; [discriminate|].
    subst r2. rewrite string_compare_refl in Hr. discriminate.
Qed.

Lemma row_lt_agg_lt a b : row_lt a b <-> agg_lt (aggregated a) (aggregated b).
Proof. unfold row_lt, agg_lt. simpl. now rewrite key_compare_lt_iff. Qed.

Lemma length_confirmed_diff rows seen :
  List.length (confirmed_diff seen rows) = List.length rows.
Proof.
  revert seen. induction rows as [|a rows IH]; simpl; intros seen; auto.
Qed.

Lemma aggregated_derive a d : aggregated (derive a d) = a.
Proof. destruct a; reflexivity. Qed.

Lemma aggregated_add_derived country_data :
  map aggregated (add_derived country_data) = country_data.
Proof.
  unfold add_derived. generalize (@nil AggRow) as seen.
  induction country_data as [|a rows IH]; simpl; intros seen; [reflexivity|].
  now rewrite aggregated_derive, IH.
Qed.

(** Where a row of the output comes from: an aggregated row, and the
    nearest row above it that has the same region. *)
Lemma add_derived_inv_gen rows seen o :
  In o (map (fun ad => derive (fst ad) (snd ad))
            (combine rows (confirmed_diff seen rows))) ->
  exists above a below,
    rows = above ++ a :: below
    /\ o = derive a (option_map (fun p => a_confirmed a - a_confirmed p)
                                (find (same_region a) (rev above ++ seen))).
Proof.
  revert seen. induction rows as [|a rows IH]; simpl; intros seen; [tauto|].
  intros [<- | Hin].
  - exists [], a, rows. split; reflexivity.
  - destruct (IH _ Hin) as (above & a' & below & -> & ->).
    exists (a :: above), a', below. split; [reflexivity|].
    simpl. now rewrite <- app_assoc.
Qed.

Lemma add_derived_inv country_data o :
  In o (add_derived country_data) ->
  exists above a below,
    country_data = above ++ a :: below
    /\ o = derive a (option_map (fun p => a_confirmed a - a_confirmed p)
                                (find (same_region a) (rev above))).
Proof.
  intros H. apply add_derived_inv_gen in H.
  destruct H as (above & a & below & H1 & H2).
  rewrite app_nil_r in H2. eauto.
Qed.

Lemma in_add_derived country_data o :
  In o (add_derived country_data) -> In (aggregated o) country_data.
Proof.
  intros H. rewrite <- (aggregated_add_derived country_data).
  now apply in_map.
Qed.

Lemma in_country_data country_data a :
  In a country_data ->
  exists o, In o (add_derived country_data) /\ aggregated o = a.
Proof.
  intros H. rewrite <- (aggregated_add_derived country_data) in H.
  apply in_map_iff in H. destruct H as (o & H1 & H2). eauto.
Qed.


Lemma sorted_app_inv (above : list AggRow) a below :
  StronglySorted agg_lt (above ++ a :: below) ->
  StronglySorted agg_lt above
  /\ (forall x, In x above -> agg_lt x a)
  /\ (forall x, In x below -> agg_lt a x).
Proof.
  induction above as [|h above IH]; simpl; intros H.
  - apply StronglySorted_inv in H. destruct H as [_ H].
    rewrite Forall_forall in H. split; [constructor|]. split; [tauto|exact H].
  - apply StronglySorted_inv in H. destruct H as [Hs Hall].
    destruct (IH Hs) as (H1 & H2 & H3).
    rewrite Forall_forall in Hall.
    split; [|split].
    + constructor; [exact H1|]. apply Forall_forall. intros x Hx.
      apply Hall. apply in_or_app. now left.
    + intros x [<- | Hx]; [|now apply H2].
      apply Hall. apply in_or_app. right. now left.
    + exact H3.
Qed.

Lemma sorted_map_aggregated out :
  StronglySorted agg_lt (map aggregated out) -> StronglySorted row_lt out.
Proof.
  induction out as [|o out IH]; simpl; intros H; [constructor|].
  apply StronglySorted_inv in H. destruct H as [Hs Hall].
  constructor; [now apply IH|].
  rewrite Forall_forall in *. intros x Hx. apply row_lt_agg_lt.
  apply Hall. now apply in_map.
Qed.

(** * Properties of [load_data] *)

Section Properties.

Variable to_datetime : string -> option Timestamp.

Lemma load_data_inv c d r out :
  load_data to_datetime c d r = Ok out ->
  exists full,
    full_data to_datetime c d r = Ok full
    /\ out = add_derived (groupby_sum full).
Proof.
  unfold load_data. destruct (full_data to_datetime c d r) as [full|e]; simpl.
  - intros [= <-]. eauto.
  - discriminate.
Qed.


Lemma load_data_sorted c d r out :
  load_data to_datetime c d r = Ok out -> StronglySorted row_lt out.
Proof.
  intros H. apply load_data_inv in H. destruct H as (full & _ & ->).
  apply sorted_map_aggregated. rewrite aggregated_add_derived.
  apply groupby_sum_sorted.
Qed.

(** C8: the output is ordered by region and, within a region, by date
    ascending: of two rows, the one that comes first has the smaller region,
    or the same region and the earlier date. *)
Theorem output_sorted_by_region_then_date c d r out :
  load_data to_datetime c d r = Ok out ->
  StronglySorted row_lt out.
Proof. apply load_data_sorted. Qed.

(** The rows above a row that have its region have an earlier date. *)
Lemma nearest_above_earlier above a below p :
  StronglySorted agg_lt (above ++ a :: below) ->
  find (same_region a) (rev above) = Some p ->
  In p (above ++ a :: below) /\ a_region p = a_region a /\ a_date p < a_date a.
Proof.
  intros Hs Hf. apply find_some in Hf. destruct Hf as [Hin Hreg].
  apply in_rev in Hin. unfold same_region in Hreg. apply String.eqb_eq in Hreg.
  destruct (sorted_app_inv _ _ _ Hs) as (_ & Hlt & _).
  specialize (Hlt _ Hin). unfold agg_lt in Hlt. rewrite Hreg in Hlt.
  apply key_compare_same_region in Hlt.
  split; [apply in_or_app; now left | tauto].
Qed.

(** C3: the row of a region with the earliest date has New Cases 0. *)
Theorem new_cases_zero_on_first_date c d r out o :
  load_data to_datetime c d r = Ok out ->
  In o out ->
  (forall x, In x out -> Region x = Region o -> Date o <= Date x) ->
  New_Cases o = 0.
Proof.
  intros H Ho Hfirst. apply load_data_inv in H. destruct H as (full & _ & ->).
  pose proof (groupby_sum_sorted full) as Hs.
  destruct (add_derived_inv _ _ Ho) as (above & a & below & Hsplit & ->).
  destruct (find (same_region a) (rev above)) as [p|] eqn:Hf; [|reflexivity].
  exfalso. rewrite Hsplit in Hs.
  destruct (nearest_above_earlier _ _ _ _ Hs Hf) as (Hin & Hreg & Hdate).
  rewrite <- Hsplit in Hin.
  destruct (in_country_data _ _ Hin) as (x & Hx & <-).
  specialize (Hfirst x Hx). simpl in *. specialize (Hfirst Hreg). lia.
Qed.


End Properties.

(** * Melting, converting and joining *)

Lemma column_position_some label columns :
  In label columns -> exists k, column_position label columns = Some k.
Proof.
  induction columns as [|c cs IH]; simpl; [tauto|].
  destruct (String.eqb label c) eqn:E; [eauto|].
  intros [->|H]; [now rewrite String.eqb_refl in E|].
  destruct (IH H) as [k ->]. simpl. eauto.
Qed.

Lemma column_position_in label columns k :
  column_position label columns = Some k -> In label columns.
Proof.
  revert k. induction columns as [|c cs IH]; simpl; [discriminate|].
  destruct (String.eqb label c) eqn:E.
  - apply String.eqb_eq in E. auto.
  - destruct (column_position label cs); simpl; [eauto|discriminate].
Qed.

(** [melt] raises exactly when a label is not a column of the frame. *)
Lemma melt_ok df value_vars :
  (forall label, In label value_vars -> In label (date_columns df)) ->
  exists melted, melt df value_vars = Ok melted.
Proof.
  induction value_vars as [|label rest IH]; simpl; intros H; [eauto|].
  unfold melt_column.
  destruct (column_position_some label (date_columns df)) as [k ->]; auto.
  destruct IH as [more ->]; auto. simpl. eauto.
Qed.

Lemma melt_labels df value_vars melted :
  melt df value_vars = Ok melted ->
  forall label, In label value_vars -> In label (date_columns df).
Proof.
  revert melted. induction value_vars as [|l rest IH]; simpl; [tauto|].
  intros melted. unfold melt_column.
  destruct (column_position l (date_columns df)) as [k|] eqn:Hk;
    [|discriminate].
  simpl. destruct (melt df rest) as [more|]; [|discriminate].
  intros _ label [<-|H]; [eapply column_position_in; eauto | eapply IH; eauto].
Qed.

(** The rows of a melted frame: one per value column and row of the frame. *)
Lemma in_melt df value_vars melted :
  melt df value_vars = Ok melted ->
  forall m, In m melted <->
    exists label row k,
      In label value_vars /\ In row (rows df)
      /\ column_position label (date_columns df) = Some k
      /\ m = mkMelted (ident row) label (cell_at k row).
Proof.
  revert melted. induction value_vars as [|l rest IH]; simpl.
  - intros melted [= <-] m. simpl. split; [tauto|].
    intros (? & ? & ? & [] & _).
  - intros melted. unfold melt_column.
    destruct (column_position l (date_columns df)) as [k|] eqn:Hk;
      [|discriminate].
    simpl. destruct (melt df rest) as [more|]; [|discriminate].
    simpl. intros [= <-] m. rewrite in_app_iff, in_map_iff, (IH more eq_refl).
    split.
    + intros [(row & <- & Hrow) | (label & row & k' & H1 & H2 & H3 & H4)].
      * exists l, row, k. auto.
      * exists label, row, k'. auto.
    + intros (label & row & k' & [<-|H1] & H2 & H3 & H4).
      * left. exists row. rewrite Hk in H3. injection H3 as <-. auto.
      * right. exists label, row, k'. auto.
Qed.

Section Conversion.

Variable to_datetime : string -> option Timestamp.

Lemma to_datetime_column_ok frame :
  (forall m, In m frame -> to_datetime (m_date m) <> None) ->
  exists converted, to_datetime_column to_datetime frame = Ok converted.
Proof.
  induction frame as [|m rest IH]; simpl; intros H; [eauto|].
  destruct (to_datetime (m_date m)) eqn:E; [|now destruct (H m); auto].
  destruct IH as [more ->]; auto. simpl. eauto.
Qed.

Lemma in_to_datetime_column frame converted :
  to_datetime_column to_datetime frame = Ok converted ->
  forall x, In x converted <->
    exists m t, In m frame /\ to_datetime (m_date m) = Some t
                /\ x = mkMelted (m_ident m) t (m_value m).
Proof.
  revert converted. induction frame as [|m rest IH]; simpl.
  - intros converted [= <-] x. simpl. split; [tauto|]. intros (? & ? & [] & _).
  - intros converted. destruct (to_datetime (m_date m)) as [t|] eqn:E;
      [|discriminate].
    destruct (to_datetime_column to_datetime rest) as [more|]; [|discriminate].
    simpl. intros [= <-] x. simpl. rewrite (IH more eq_refl). split.
    + intros [<- | (m' & t' & H1 & H2 & H3)].
      * exists m, t. auto.
      * exists m', t'. auto.
    + intros (m' & t' & [<-|H1] & H2 & H3).
      * left. rewrite E in H2. injection H2 as <-. auto.
      * right. exists m', t'. auto.
Qed.

(** A frame that has the labels, all of them dates, melts and converts. *)
Lemma long_frame_ok dates df :
  (forall label, In label dates ->
     In label (date_columns df) /\ to_datetime label <> None) ->
  exists long, long_frame to_datetime dates df = Ok long.
Proof.
  intros H. unfold long_frame.
  destruct (melt_ok df dates) as [melted Hm]; [intros l Hl; now apply H|].
  rewrite Hm. simpl. apply to_datetime_column_ok.
  intros m Hin. apply (in_melt _ _ _ Hm) in Hin.
  destruct Hin as (label & row & k & H1 & _ & _ & ->). simpl. now apply H.
Qed.

(** The keys and values of a long frame, from the raw frame. *)
Lemma in_long_frame dates df long :
  long_frame to_datetime dates df = Ok long ->
  forall x, In x long <->
    exists label row k,
      In label dates /\ In row (rows df)
      /\ column_position label (date_columns df) = Some k
      /\ to_datetime label = Some (m_date x)
      /\ m_ident x = ident row /\ m_value x = cell_at k row.
Proof.
  unfold long_frame. destruct (melt df dates) as [melted|] eqn:Hm;
    [|discriminate].
  simpl. intros Hc x. rewrite (in_to_datetime_column _ _ Hc). split.
  - intros (m & t & Hin & Ht & ->). apply (in_melt _ _ _ Hm) in Hin.
    destruct Hin as (label & row & k & H1 & H2 & H3 & ->).
    exists label, row, k. simpl in *. auto 10.
  - intros (label & row & k & H1 & H2 & H3 & H4 & H5 & H6).
    exists (mkMelted (ident row) label (cell_at k row)), (m_date x).
    split; [apply (in_melt _ _ _ Hm); eauto 10|].
    split; [exact H4|]. destruct x; simpl in *. now subst.
Qed.

(** [full_data] is the join of the three long frames, zero-filled; it
    raises when one of them does. *)
Lemma full_data_long c d r :
  full_data to_datetime c d r
  = (cm <- long_frame to_datetime (date_columns c) c ;;
     dm <- long_frame to_datetime (date_columns c) d ;;
     rm <- long_frame to_datetime (date_columns c) r ;;
     Ok (map fill_row (merge_recovered (merge_deaths cm dm) rm)))
  \/ exists e, full_data to_datetime c d r = Raise e.
Proof.
  unfold full_data, long_frame.
  destruct (melt c (date_columns c)) as [cm|]; simpl; [|eauto].
  destruct (melt d (date_columns c)) as [dm|]; simpl.
  - destruct (melt r (date_columns c)) as [rm|]; simpl; [auto|].
    destruct (to_datetime_column to_datetime cm); simpl; [|eauto].
    destruct (to_datetime_column to_datetime dm); simpl; eauto.
  - destruct (to_datetime_column to_datetime cm); simpl; eauto.
Qed.

Lemma full_data_inv c d r full :
  full_data to_datetime c d r = Ok full ->
  exists cm dm rm,
    long_frame to_datetime (date_columns c) c = Ok cm
    /\ long_frame to_datetime (date_columns c) d = Ok dm
    /\ long_frame to_datetime (date_columns c) r = Ok rm
    /\ full = map fill_row (merge_recovered (merge_deaths cm dm) rm).
Proof.
  intros H. destruct (full_data_long c d r) as [E|[e E]];
    [|rewrite E in H; discriminate].
  rewrite E in H.
  destruct (long_frame to_datetime (date_columns c) c) as [cm|];
    [|discriminate].
  destruct (long_frame to_datetime (date_columns c) d) as [dm|];
    [|discriminate].
  destruct (long_frame to_datetime (date_columns c) r) as [rm|];
    [|discriminate].
  simpl in H. injection H as <-. exists cm, dm, rm. auto.
Qed.

End Conversion.

Lemma full_data_of_long to_datetime c d r cm dm rm :
  long_frame to_datetime (date_columns c) c = Ok cm ->
  long_frame to_datetime (date_columns c) d = Ok dm ->
  long_frame to_datetime (date_columns c) r = Ok rm ->
  full_data to_datetime c d r
  = Ok (map fill_row (merge_recovered (merge_deaths cm dm) rm)).
Proof.
  unfold full_data, long_frame.
  destruct (melt c (date_columns c)) as [c'|]; simpl; [|discriminate].
  destruct (melt d (date_columns c)) as [d'|]; simpl; [|discriminate].
  destruct (melt r (date_columns c)) as [r'|]; simpl; [|discriminate].
  now intros -> -> ->.
Qed.

(** ** The left joins *)


Lemma joined_values_matched i t right v :
  In v (joined_values i t right) ->
  v = None \/ exists y, In y right /\ same_key i t y = true /\ v = m_value y.
Proof.
  unfold joined_values.
  destruct (filter (same_key i t) right) as [|h hits] eqn:E.
  - intros [<-|[]]. now left.
  - rewrite <- E. intros H. apply in_map_iff in H.
    destruct H as (y & <- & Hy). apply filter_In in Hy.
    destruct Hy as [Hin Hkey]. right. exists y. auto.
Qed.

Lemma joined_values_inhabited i t right :
  exists v, In v (joined_values i t right).
Proof.
  unfold joined_values. destruct (filter (same_key i t) right) as [|h hits].
  - exists None. now left.
  - exists (m_value h). now left.
Qed.

Lemma in_merge_deaths cm dm j :
  In j (merge_deaths cm dm) <->
  exists x v, In x cm /\ In v (joined_values (m_ident x) (m_date x) dm)
              /\ j = mkMerged1 (m_ident x) (m_date x) (m_value x) v.
Proof.
  unfold merge_deaths. rewrite in_flat_map. split.
  - intros (x & Hx & Hj). apply in_map_iff in Hj.
    destruct Hj as (v & <- & Hv). eauto.
  - intros (x & v & Hx & Hv & ->). exists x. split; [exact Hx|].
    now apply in_map.
Qed.

Lemma in_merge_recovered left rm k :
  In k (merge_recovered left rm) <->
  exists j v, In j left /\ In v (joined_values (j_ident j) (j_date j) rm)
              /\ k = mkMerged2 (j_ident j) (j_date j)
                               (j_confirmed j) (j_deaths j) v.
Proof.
  unfold merge_recovered. rewrite in_flat_map. split.
  - intros (j & Hj & Hk). apply in_map_iff in Hk.
    destruct Hk as (v & <- & Hv). eauto.
  - intros (j & v & Hj & Hv & ->). exists j. split; [exact Hj|].
    now apply in_map.
Qed.

(** Where a row of [full_data] comes from. *)
Lemma in_merged cm dm rm f :
  In f (map fill_row (merge_recovered (merge_deaths cm dm) rm)) <->
  exists x vd vr,
    In x cm
    /\ In vd (joined_values (m_ident x) (m_date x) dm)
    /\ In vr (joined_values (m_ident x) (m_date x) rm)
    /\ f = mkFullRow (m_ident x) (m_date x)
                     (fillna (m_value x)) (fillna vd) (fillna vr).
Proof.
  rewrite in_map_iff. split.
  - intros (k & <- & Hk). apply in_merge_recovered in Hk.
    destruct Hk as (j & vr & Hj & Hvr & ->). apply in_merge_deaths in Hj.
    destruct Hj as (x & vd & Hx & Hvd & ->). simpl in Hvr.
    exists x, vd, vr. auto.
  - intros (x & vd & vr & Hx & Hvd & Hvr & ->).
    exists (mkMerged2 (m_ident x) (m_date x) (m_value x) vd vr).
    split; [reflexivity|]. apply in_merge_recovered.
    exists (mkMerged1 (m_ident x) (m_date x) (m_value x) vd), vr.
    split; [|auto]. apply in_merge_deaths. eauto.
Qed.

(** The left join keeps every row of the confirmed frame. *)
Lemma confirmed_row_kept cm dm rm x :
  In x cm ->
  exists f, In f (map fill_row (merge_recovered (merge_deaths cm dm) rm))
            /\ f_ident f = m_ident x /\ f_date f = m_date x
            /\ f_confirmed f = fillna (m_value x).
Proof.
  intros Hx.
  destruct (joined_values_inhabited (m_ident x) (m_date x) dm) as [vd Hvd].
  destruct (joined_values_inhabited (m_ident x) (m_date x) rm) as [vr Hvr].
  exists (mkFullRow (m_ident x) (m_date x)
                    (fillna (m_value x)) (fillna vd) (fillna vr)).
  split; [|simpl; auto]. apply in_merged. eauto 10.
Qed.

Lemma full_row_from_confirmed cm dm rm f :
  In f (map fill_row (merge_recovered (merge_deaths cm dm) rm)) ->
  exists x, In x cm /\ f_ident f = m_ident x /\ f_date f = m_date x
            /\ f_confirmed f = fillna (m_value x).
Proof.
  intros H. apply in_merged in H.
  destruct H as (x & vd & vr & Hx & _ & _ & ->). exists x. simpl. auto.
Qed.


(** When no key has two partners, the joins neither drop nor repeat a
    row of the confirmed frame. *)
Lemma joined_values_one i t right :
  at_most_one_partner i t right -> exists v, joined_values i t right = [v].
Proof.
  unfold at_most_one_partner, joined_values.
  destruct (filter (same_key i t) right) as [|h [|h' hits]]; simpl; eauto.
  lia.
Qed.

Lemma merge_deaths_one_to_one cm dm :
  (forall x, In x cm -> at_most_one_partner (m_ident x) (m_date x) dm) ->
  map (fun j => (j_ident j, j_date j, j_confirmed j)) (merge_deaths cm dm)
  = map (fun x => (m_ident x, m_date x, m_value x)) cm.
Proof.
  unfold merge_deaths. induction cm as [|x cm IH]; simpl; intros H;
    [reflexivity|].
  destruct (joined_values_one _ _ _ (H x (or_introl eq_refl))) as [v ->].
  simpl. f_equal. apply IH. auto.
Qed.

Lemma merge_recovered_one_to_one left rm :
  (forall j, In j left -> at_most_one_partner (j_ident j) (j_date j) rm) ->
  map (fun k => (k_ident k, k_date k, k_confirmed k)) (merge_recovered left rm)
  = map (fun j => (j_ident j, j_date j, j_confirmed j)) left.
Proof.
  unfold merge_recovered. induction left as [|j left IH]; simpl; intros H;
    [reflexivity|].
  destruct (joined_values_one _ _ _ (H j (or_introl eq_refl))) as [v ->].
  simpl. f_equal. apply IH. auto.
Qed.

Lemma merged_one_to_one cm dm rm :
  (forall x, In x cm -> at_most_one_partner (m_ident x) (m_date x) dm
                        /\ at_most_one_partner (m_ident x) (m_date x) rm) ->
  map (fun f => (f_ident f, f_date f, f_confirmed f))
      (map fill_row (merge_recovered (merge_deaths cm dm) rm))
  = map (fun x => (m_ident x, m_date x, fillna (m_value x))) cm.
Proof.
  intros H.
  transitivity (map (fun p : Ident * Timestamp * option Z =>
                       (fst (fst p), snd (fst p), fillna (snd p)))
                    (map (fun k => (k_ident k, k_date k, k_confirmed k))
                         (merge_recovered (merge_deaths cm dm) rm))).
  { rewrite !map_map. reflexivity. }
  rewrite merge_recovered_one_to_one, merge_deaths_one_to_one.
  - rewrite map_map. reflexivity.
  - intros x Hx. now apply H.
  - intros j Hj. apply in_merge_deaths in Hj.
    destruct Hj as (x & v & Hx & _ & ->). simpl. now apply H.
Qed.

Lemma map_filter_through {A B : Type} (f : A -> B) (p : B -> bool) (l : list A) :
  map f (filter (fun a => p (f a)) l) = filter p (map f l).
Proof.
  induction l as [|a l IH]; simpl; [reflexivity|].
  destruct (p (f a)); simpl; now rewrite IH.
Qed.

(** * Sums, joins and reruns *)

Section Aggregates.

Variable to_datetime : string -> option Timestamp.

(** An output row is the fold of its group. *)
Lemma output_row_is_group_fold c d r full out o :
  full_data to_datetime c d r = Ok full ->
  load_data to_datetime c d r = Ok out ->
  In o out ->
  let group := group_rows (Region o) (Date o) full in
  group <> [] /\
  aggregated o = fold_left add_row group (empty_group (Region o) (Date o)).
Proof.
  intros Hfull Hout Ho. unfold load_data in Hout. rewrite Hfull in Hout.
  simpl in Hout. injection Hout as <-.
  apply in_add_derived, in_groupby_sum in Ho. simpl in Ho |- *.
  unfold agg_of in Ho.
  destruct (group_rows (Region o) (Date o) full) as [|f group]; [discriminate|].
  injection Ho as <-. split; [discriminate | reflexivity].
Qed.

Lemma counts_on_group c d r full out o :
  full_data to_datetime c d r = Ok full ->
  load_data to_datetime c d r = Ok out ->
  In o out ->
  Confirmed o = sumZ (map f_confirmed (group_rows (Region o) (Date o) full))
  /\ Deaths o = sumZ (map f_deaths (group_rows (Region o) (Date o) full))
  /\ Recovered o = sumZ (map f_recovered (group_rows (Region o) (Date o) full)).
Proof.
  intros Hfull Hout Ho.
  destruct (output_row_is_group_fold _ _ _ _ _ _ Hfull Hout Ho) as [_ Hfold].
  pose proof (fold_add_row_counts (group_rows (Region o) (Date o) full)
                (empty_group (Region o) (Date o))) as (H1 & H2 & H3).
  rewrite <- Hfold in H1, H2, H3. simpl in H1, H2, H3. auto.
Qed.


(** In terms of the confirmed frame: when no key has two partners in the
    deaths or in the recovered frame, Confirmed is the sum of the confirmed
    counts of the sub-regions, a missing count taken as 0. *)
Lemma confirmed_is_sum_over_confirmed_frame c d r cm dm rm out o :
  long_frame to_datetime (date_columns c) c = Ok cm ->
  long_frame to_datetime (date_columns c) d = Ok dm ->
  long_frame to_datetime (date_columns c) r = Ok rm ->
  (forall x, In x cm -> at_most_one_partner (m_ident x) (m_date x) dm
                        /\ at_most_one_partner (m_ident x) (m_date x) rm) ->
  load_data to_datetime c d r = Ok out ->
  In o out ->
  Confirmed o
  = sumZ (map (fun x => fillna (m_value x))
              (long_group (Region o) (Date o) cm)).
Proof.
  intros Hc Hd Hr Hone Hout Ho.
  pose proof (full_data_of_long _ _ _ _ _ _ _ Hc Hd Hr) as Hfull.
  destruct (counts_on_group _ _ _ _ _ _ Hfull Hout Ho) as (-> & _).
  set (p := fun k : Ident * Timestamp * Z =>
              opt_eqb String.eqb (Country_Region (fst (fst k)))
                      (Some (Region o))
              && (snd (fst k) =? Date o)).
  set (full := map fill_row (merge_recovered (merge_deaths cm dm) rm)).
  transitivity (sumZ (map snd
    (filter p (map (fun f => (f_ident f, f_date f, f_confirmed f)) full)))).
  { rewrite <- map_filter_through, map_map. reflexivity. }
  unfold full. rewrite (merged_one_to_one _ _ _ Hone).
  rewrite <- map_filter_through, map_map. reflexivity.
Qed.


Lemma dates_usable_spec c d r :
  dates_usable to_datetime c d r = true ->
  forall label, In label (date_columns c) ->
    In label (date_columns d) /\ In label (date_columns r)
    /\ to_datetime label <> None.
Proof.
  unfold dates_usable. rewrite forallb_forall. intros H label Hl.
  specialize (H _ Hl). rewrite !andb_true_iff in H.
  destruct H as [[Hd Hr] Hp]. unfold has_column in *.
  apply existsb_exists in Hd. destruct Hd as (x & Hx & Ex).
  apply existsb_exists in Hr. destruct Hr as (y & Hy & Ey).
  apply String.eqb_eq in Ex, Ey. subst x y.
  unfold is_date in Hp. destruct (to_datetime label); [|discriminate].
  repeat split; auto. discriminate.
Qed.

(** With usable date labels nothing raises, whatever the rows are. *)
Lemma full_data_ok c d r :
  dates_usable to_datetime c d r = true ->
  exists cm dm rm,
    long_frame to_datetime (date_columns c) c = Ok cm
    /\ long_frame to_datetime (date_columns c) d = Ok dm
    /\ long_frame to_datetime (date_columns c) r = Ok rm
    /\ full_data to_datetime c d r
       = Ok (map fill_row (merge_recovered (merge_deaths cm dm) rm)).
Proof.
  intros H. pose proof (dates_usable_spec _ _ _ H) as Hl.
  destruct (long_frame_ok to_datetime (date_columns c) c) as [cm Hc].
  { intros label Hin. split; [exact Hin | now apply Hl]. }
  destruct (long_frame_ok to_datetime (date_columns c) d) as [dm Hd].
  { intros label Hin. split; now apply Hl. }
  destruct (long_frame_ok to_datetime (date_columns c) r) as [rm Hr].
  { intros label Hin. split; now apply Hl. }
  exists cm, dm, rm. repeat split; auto. now apply full_data_of_long.
Qed.




End Aggregates.

(** * The keys of the output *)

Lemma row_lt_key_neq a b :
  row_lt a b -> ~ (Region a = Region b /\ Date a = Date b).
Proof.
  intros [H|[_ H]] [Hr Hd]; [|lia].
  rewrite Hr, string_compare_refl in H. discriminate.
Qed.

Lemma filter_all_false {A : Type} (p : A -> bool) (l : list A) :
  (forall x, In x l -> p x = false) -> filter p l = [].
Proof.
  induction l as [|a l IH]; simpl; intros H; [reflexivity|].
  rewrite (H a) by auto. apply IH. auto.
Qed.

(** In a sorted output a key selects one row. *)
Lemma rows_with_key_single out o :
  StronglySorted row_lt out -> In o out ->
  rows_with_key (Region o) (Date o) out = [o].
Proof.
  unfold rows_with_key.
  induction 1 as [|h out Hs IH Hall]; simpl; [tauto|].
  rewrite Forall_forall in Hall. intros [->|Hin].
  - rewrite String.eqb_refl, Z.eqb_refl. simpl. f_equal.
    apply filter_all_false. intros x Hx.
    destruct (String.eqb (Region x) (Region o) && (Date x =? Date o)) eqn:E;
      [|reflexivity].
    apply andb_true_iff in E. destruct E as [E1 E2].
    apply String.eqb_eq in E1. apply Z.eqb_eq in E2.
    destruct (row_lt_key_neq _ _ (Hall _ Hx)). auto.
  - destruct (String.eqb (Region h) (Region o) && (Date h =? Date o)) eqn:E;
      [|now apply IH].
    apply andb_true_iff in E. destruct E as [E1 E2].
    apply String.eqb_eq in E1. apply Z.eqb_eq in E2.
    destruct (row_lt_key_neq _ _ (Hall _ Hin)). auto.
Qed.

(** In a sorted output the dates of one region do not repeat. *)
Lemma region_dates_NoDup region out :
  StronglySorted row_lt out ->
  NoDup (map Date (rows_of_region region out)).
Proof.
  unfold rows_of_region.
  induction 1 as [|h out Hs IH Hall]; simpl; [constructor|].
  destruct (String.eqb (Region h) region) eqn:E; [|exact IH].
  apply String.eqb_eq in E. simpl. constructor; [|exact IH].
  intros Hin. apply in_map_iff in Hin. destruct Hin as (x & Hd & Hx).
  apply filter_In in Hx. destruct Hx as [Hx Hr]. apply String.eqb_eq in Hr.
  rewrite Forall_forall in Hall.
  apply (row_lt_key_neq _ _ (Hall _ Hx)). split; congruence.
Qed.

Lemma in_region_dates region out t :
  In t (map Date (rows_of_region region out)) <->
  exists o, In o out /\ Region o = region /\ Date o = t.
Proof.
  unfold rows_of_region. rewrite in_map_iff. split.
  - intros (o & Hd & Ho). apply filter_In in Ho. destruct Ho as [Ho Hr].
    apply String.eqb_eq in Hr. eauto.
  - intros (o & Ho & Hr & Hd). exists o. split; [exact Hd|].
    apply filter_In. split; [exact Ho|]. now apply String.eqb_eq.
Qed.

Lemma in_group_true region t f :
  in_group region t f = true <->
  Country_Region (f_ident f) = Some region /\ f_date f = t.
Proof.
  unfold in_group. rewrite andb_true_iff, Z.eqb_eq.
  destruct (Country_Region (f_ident f)) as [s|]; simpl.
  - rewrite String.eqb_eq. split; intros [H1 H2]; split; congruence.
  - split; intros [H _]; discriminate.
Qed.

(** The keys of the aggregated frame are the keys of [full_data] that have
    a region. *)
Lemma groupby_sum_keys full region t :
  (exists g, In g (groupby_sum full) /\ a_region g = region /\ a_date g = t)
  <->
  (exists f, In f full /\ Country_Region (f_ident f) = Some region
             /\ f_date f = t).
Proof.
  split.
  - intros (g & Hg & <- & <-). apply in_groupby_sum in Hg.
    unfold agg_of in Hg.
    destruct (group_rows (a_region g) (a_date g) full) as [|f group] eqn:E;
      [discriminate|].
    assert (Hf : In f (group_rows (a_region g) (a_date g) full))
      by (rewrite E; now left).
    apply filter_In in Hf. destruct Hf as [Hf Hk].
    apply in_group_true in Hk. exists f. tauto.
  - intros (f & Hf & Hr & Ht).
    assert (Hin : In f (group_rows region t full)).
    { apply filter_In. split; [exact Hf|]. now apply in_group_true. }
    pose proof (find_groupby_sum region t full) as Hfind.
    unfold agg_of in Hfind.
    destruct (group_rows region t full) as [|f' group]; [destruct Hin|].
    apply find_some in Hfind. destruct Hfind as [Hg Hk].
    apply has_key_true in Hk. eauto.
Qed.

Section Keys.

Variable to_datetime : string -> option Timestamp.

Lemma in_parsed_dates labels t :
  In t (parsed_dates to_datetime labels) <->
  exists label, In label labels /\ to_datetime label = Some t.
Proof.
  unfold parsed_dates. rewrite in_flat_map. split.
  - intros (label & Hl & Ht). exists label. split; [exact Hl|].
    destruct (to_datetime label) as [t'|]; [|destruct Ht].
    destruct Ht as [<-|[]]. reflexivity.
  - intros (label & Hl & Ht). exists label. split; [exact Hl|].
    rewrite Ht. now left.
Qed.

(** The keys of the output are the pairs of the confirmed frame. *)
Lemma output_keys c d r out region t :
  load_data to_datetime c d r = Ok out ->
  (exists o, In o out /\ Region o = region /\ Date o = t)
  <-> confirmed_pair to_datetime c region t.
Proof.
  intros Hout. apply load_data_inv in Hout. destruct Hout as (full & Hfull & ->).
  apply full_data_inv in Hfull.
  destruct Hfull as (cm & dm & rm & Hc & _ & _ & ->).
  transitivity (exists g,
    In g (groupby_sum (map fill_row (merge_recovered (merge_deaths cm dm) rm)))
    /\ a_region g = region /\ a_date g = t).
  { split.
    - intros (o & Ho & <- & <-). exists (aggregated o).
      split; [now apply in_add_derived | now simpl].
    - intros (g & Hg & <- & <-).
      destruct (in_country_data _ _ Hg) as (o & Ho & <-). exists o. now simpl. }
  rewrite groupby_sum_keys. unfold confirmed_pair. split.
  - intros (f & Hf & Hr & Ht). apply full_row_from_confirmed in Hf.
    destruct Hf as (x & Hx & Hi & Hd & _).
    apply (in_long_frame _ _ _ _ Hc) in Hx.
    destruct Hx as (label & row & k & H1 & H2 & _ & H4 & H5 & _).
    exists row, label. repeat split; auto; congruence.
  - intros (row & label & Hrow & Hreg & Hl & Ht).
    destruct (column_position_some label (date_columns c) Hl) as [k Hk].
    destruct (confirmed_row_kept cm dm rm
                (mkMelted (ident row) t (cell_at k row))) as (f & Hf & Hi & Hd & _).
    { apply (in_long_frame _ _ _ _ Hc). exists label, row, k. simpl. auto 10. }
    exists f. simpl in *. repeat split; auto; congruence.
Qed.

End Keys.

Section Counting.

Variable to_datetime : string -> option Timestamp.

Lemma distinct_NoDup l : distinct l = true -> NoDup l.
Proof.
  induction l as [|t l IH]; simpl; [constructor|].
  rewrite andb_true_iff, negb_true_iff. intros [Hn Hd].
  constructor; [|now apply IH].
  intros Hin. assert (E : existsb (Z.eqb t) l = true).
  { apply existsb_exists. exists t. split; [exact Hin | apply Z.eqb_refl]. }
  congruence.
Qed.

Lemma length_parsed_dates labels :
  forallb (is_date to_datetime) labels = true ->
  List.length (parsed_dates to_datetime labels) = List.length labels.
Proof.
  unfold parsed_dates, is_date.
  induction labels as [|label labels IH]; simpl; [reflexivity|].
  rewrite andb_true_iff. intros [H1 H2].
  destruct (to_datetime label); [|discriminate]. simpl. now rewrite IH.
Qed.

Lemma contract_dates_usable c d r :
  contract to_datetime c d r = true -> dates_usable to_datetime c d r = true.
Proof.
  unfold contract, dates_usable, same_columns.
  rewrite !andb_true_iff, !forallb_forall.
  intros [[[[[[Hd _] [Hr _]] Hp] _] _] _] label Hl.
  now rewrite Hd, Hr, Hp.
Qed.

(** The rows of a region are as many as the dates that the labels denote,
    when these are distinct. *)
Lemma rows_of_region_count c d r out region :
  load_data to_datetime c d r = Ok out ->
  StronglySorted row_lt out ->
  NoDup (parsed_dates to_datetime (date_columns c)) ->
  region_present c region ->
  List.length (rows_of_region region out)
  = List.length (parsed_dates to_datetime (date_columns c)).
Proof.
  intros Hout Hs Hnd (row & Hrow & Hreg).
  rewrite <- (length_map Date). apply Permutation_length.
  apply NoDup_Permutation; [now apply region_dates_NoDup | exact Hnd |].
  intros t. rewrite in_region_dates, (output_keys _ _ _ _ _ _ _ Hout).
  rewrite in_parsed_dates. unfold confirmed_pair. split.
  - intros (row' & label & _ & _ & Hl & Ht). eauto.
  - intros (label & Hl & Ht). exists row, label. auto.
Qed.

(** C1: under the contract [load_data] returns a table that has one row
    for every (region, date) pair of the confirmed frame and no other row;
    a region of the confirmed frame has as many rows as the confirmed
    frame has date columns. *)
Theorem one_row_per_region_and_date c d r :
  contract to_datetime c d r = true ->
  exists out,
    load_data to_datetime c d r = Ok out
    /\ (forall region t, confirmed_pair to_datetime c region t ->
          List.length (rows_with_key region t out) = 1%nat)
    /\ (forall o, In o out ->
          confirmed_pair to_datetime c (Region o) (Date o))
    /\ (forall region, region_present c region ->
          List.length (rows_of_region region out)
          = List.length (date_columns c)).
Proof.
  intros Hc. pose proof (contract_dates_usable _ _ _ Hc) as Hu.
  destruct (full_data_ok _ _ _ _ Hu) as (cm & dm & rm & _ & _ & _ & Hfull).
  assert (Hout : exists out, load_data to_datetime c d r = Ok out).
  { unfold load_data. rewrite Hfull. simpl. eauto. }
  destruct Hout as [out Hout]. exists out.
  pose proof (load_data_sorted _ _ _ _ _ Hout) as Hs.
  split; [exact Hout|]. split; [|split].
  - intros region t Hp. apply (output_keys _ _ _ _ _ _ _ Hout) in Hp.
    destruct Hp as (o & Ho & <- & <-).
    now rewrite (rows_with_key_single _ _ Hs Ho).
  - intros o Ho. apply (output_keys _ _ _ _ _ _ _ Hout). eauto.
  - intros region Hreg. unfold contract in Hc. rewrite !andb_true_iff in Hc.
    destruct Hc as [[[[_ Hdates] Hdist] _] _].
    rewrite <- (length_parsed_dates _ Hdates).
    eapply rows_of_region_count; eauto. now apply distinct_NoDup.
Qed.

(** C10, as amended: every date of the output is denoted by a date label
    of the confirmed frame, so that a label that only the deaths or the
    recovered frame has brings no date of its own; and when the confirmed
    frame has a row with a region, every date that its labels denote is in
    the output. *)
Theorem output_dates_are_confirmed_labels c d r out :
  load_data to_datetime c d r = Ok out ->
  (forall o, In o out ->
     In (Date o) (parsed_dates to_datetime (date_columns c)))
  /\ ((exists region, region_present c region) ->
      forall t, In t (parsed_dates to_datetime (date_columns c)) ->
                exists o, In o out /\ Date o = t).
Proof.
  intros Hout. split.
  - intros o Ho. apply in_parsed_dates.
    assert (Hp : confirmed_pair to_datetime c (Region o) (Date o))
      by (apply (output_keys _ _ _ _ _ _ _ Hout); eauto).
    destruct Hp as (row & label & _ & _ & Hl & Ht). eauto.
  - intros (region & row & Hrow & Hreg) t Ht. apply in_parsed_dates in Ht.
    destruct Ht as (label & Hl & Ht).
    assert (Hp : confirmed_pair to_datetime c region t)
      by (exists row, label; auto).
    apply (output_keys _ _ _ _ _ _ _ Hout) in Hp.
    destruct Hp as (o & Ho & _ & Hd). eauto.
Qed.

End Counting.

(** * The transform on the small data set *)

Example sample_load_data :
  load_data mdy_to_datetime sample_confirmed sample_deaths sample_recovered
  = Ok sample_out.
Proof. vm_compute. reflexivity. Qed.

Example sample_full_data :
  full_data mdy_to_datetime sample_confirmed sample_deaths sample_recovered
  = Ok sample_full.
Proof. vm_compute. reflexivity. Qed.

Example sample_keys :
  map (fun o => (Region o, Date o)) sample_out
  = [("Austria"%string, 18283); ("Austria"%string, 18284);
     ("Canada"%string, 18283); ("Canada"%string, 18284)].
Proof. reflexivity. Qed.

(** Alberta has 7 and Ontario has 2 on the second day: Canada has 9. *)
Example canada_confirmed_is_nine :
  map f_confirmed (group_rows "Canada" 18284 sample_full) = [7; 2]
  /\ Confirmed canada_day2 = 9.
Proof. split; reflexivity. Qed.

(** Austria: more recovered than confirmed, and a count that went down. *)
Example austria_negative :
  Confirmed austria_day2 = 3 /\ Deaths austria_day2 = 0
  /\ Recovered austria_day2 = 5 /\ Active austria_day2 = -2
  /\ New_Cases austria_day2 = -1.
Proof. repeat split; reflexivity. Qed.

(** Canada's coordinates are the sums of those of its two provinces. *)
Example canada_coordinates :
  (LatSum canada_day1 == (539333 # 10000) + (512538 # 10000))%Q
  /\ (LongSum canada_day1 == (-1165765 # 10000) + (-853232 # 10000))%Q.
Proof. split; reflexivity. Qed.

(** Without the row of Ontario in the deaths frame, Ontario's deaths count
    for 0 and nothing raises; the third date column of the deaths frame
    adds no date. *)
Example ontario_deaths_zero_filled :
  exists out,
    load_data mdy_to_datetime
      sample_confirmed deaths_without_ontario sample_recovered = Ok out
    /\ map (fun o => (Region o, Date o, Deaths o)) out
       = [("Austria"%string, 18283, 0); ("Austria"%string, 18284, 0);
          ("Canada"%string, 18283, 0); ("Canada"%string, 18284, 1)].
Proof. eexists. split; vm_compute; reflexivity. Qed.

(** A row key that the deaths frame has twice gives the confirmed row
    twice in [full_data]: the groups sum what the join hands them. *)
Example duplicated_key_repeats_row :
  map f_confirmed
      (group_rows "Canada" 18284
         (rows_or_nil (full_data mdy_to_datetime
                         sample_confirmed deaths_alberta_twice sample_recovered)))
  = [7; 7; 2].
Proof. vm_compute. reflexivity. Qed.

(** A label that is missing in the deaths frame raises. *)
Example missing_label_raises :
  load_data mdy_to_datetime deaths_without_ontario sample_deaths sample_recovered
  = Raise KeyError.
Proof. vm_compute. reflexivity. Qed.

(** * The theorems at the small data set *)

Ltac each_row H :=
  repeat (destruct H as [<- | H]; [try discriminate; try (simpl; lia) | ]);
  try destruct H.

Lemma one_row_per_region_and_date_sample :
  exists out,
    load_data mdy_to_datetime sample_confirmed sample_deaths sample_recovered
    = Ok out
    /\ (forall region t,
          confirmed_pair mdy_to_datetime sample_confirmed region t ->
          List.length (rows_with_key region t out) = 1%nat)
    /\ (forall o, In o out ->
          confirmed_pair mdy_to_datetime sample_confirmed (Region o) (Date o))
    /\ (forall region, region_present sample_confirmed region ->
          List.length (rows_of_region region out) = 2%nat).
Proof.
  apply (one_row_per_region_and_date mdy_to_datetime
           sample_confirmed sample_deaths sample_recovered).
  vm_compute. reflexivity.
Defined.


Lemma new_cases_zero_sample : New_Cases canada_day1 = 0.
Proof.
  apply (new_cases_zero_on_first_date mdy_to_datetime
           sample_confirmed sample_deaths sample_recovered sample_out).
  - vm_compute. reflexivity.
  - simpl. auto.
  - intros x Hx. simpl in Hx. intros Hr. each_row Hx.
Defined.




Lemma sorted_sample : StronglySorted row_lt sample_out.
Proof.
  apply (output_sorted_by_region_then_date mdy_to_datetime
           sample_confirmed sample_deaths sample_recovered).
  vm_compute. reflexivity.
Defined.


Lemma output_dates_sample :
  (forall o, In o sample_out ->
     In (Date o) (parsed_dates mdy_to_datetime two_days))
  /\ ((exists region, region_present sample_confirmed region) ->
      forall t, In t (parsed_dates mdy_to_datetime two_days) ->
                exists o, In o sample_out /\ Date o = t).
Proof.
  apply (output_dates_are_confirmed_labels mdy_to_datetime
           sample_confirmed sample_deaths sample_recovered sample_out).
  vm_compute. reflexivity.
Defined.

(** C10, as it is written, fails on a confirmed frame without rows: the
    labels denote two dates and the output has no row. *)
Lemma header_only_output_has_no_dates :
  ~ output_dates_exactly_labels mdy_to_datetime
      header_only header_only header_only.
Proof.
  intros H. specialize (H [] eq_refl 18283).
  destruct H as [_ H].
  destruct H as (o & Ho & _); [|destruct Ho].
  vm_compute. auto.
Qed.

(** * What [load_data] raises *)

Lemma has_column_In df label :
  has_column df label = true <-> In label (date_columns df).
Proof.
  unfold has_column. rewrite existsb_exists. split.
  - intros (x & Hx & E). apply String.eqb_eq in E. now subst.
  - intros H. exists label. split; [exact H | apply String.eqb_refl].
Qed.

Lemma melt_column_closed df label :
  melt_column df label
  = if has_column df label then Ok (melted_column df label) else Raise KeyError.
Proof.
  unfold melt_column, melted_column.
  destruct (column_position label (date_columns df)) as [k|] eqn:Hk.
  - rewrite (proj2 (has_column_In df label)); [reflexivity|].
    eapply column_position_in; eauto.
  - destruct (has_column df label) eqn:Hc; [|reflexivity].
    apply has_column_In, column_position_some in Hc.
    destruct Hc as [k Hk']. congruence.
Qed.

(** [melt] returns the value columns one below the other, and raises
    KeyError when one of them is missing. *)
Lemma melt_closed df value_vars :
  melt df value_vars
  = if forallb (has_column df) value_vars then Ok (melted df value_vars)
    else Raise KeyError.
Proof.
  induction value_vars as [|label rest IH]; simpl; [reflexivity|].
  rewrite melt_column_closed, IH.
  destruct (has_column df label); simpl; [|reflexivity].
  destruct (forallb (has_column df) rest); reflexivity.
Qed.

Lemma melt_own_columns df : melt df (date_columns df) = Ok (melted df (date_columns df)).
Proof.
  rewrite melt_closed.
  replace (forallb (has_column df) (date_columns df)) with true; [reflexivity|].
  symmetry. apply forallb_forall. intros label H. now apply has_column_In.
Qed.

Section Raising.

Variable to_datetime : string -> option Timestamp.

Lemma to_datetime_column_closed frame :
  to_datetime_column to_datetime frame
  = if forallb (fun m => is_date to_datetime (m_date m)) frame
    then Ok (converted to_datetime frame)
    else Raise ParseError.
Proof.
  induction frame as [|m rest IH]; simpl; [reflexivity|].
  unfold is_date at 1. destruct (to_datetime (m_date m)); simpl; [|reflexivity].
  rewrite IH.
  destruct (forallb (fun m => is_date to_datetime (m_date m)) rest); reflexivity.
Qed.

Lemma melted_column_readable df label :
  forallb (fun m => is_date to_datetime (m_date m)) (melted_column df label)
  = negb (has_rows df) || is_date to_datetime label.
Proof.
  unfold melted_column, has_rows.
  induction (rows df) as [|row others IH]; simpl; [reflexivity|].
  rewrite IH. destruct others; destruct (is_date to_datetime label); reflexivity.
Qed.

(** The Date column of a melted frame holds every label as soon as the
    frame has a row, and no label when it has none. *)
Lemma melted_readable df value_vars :
  forallb (fun m => is_date to_datetime (m_date m)) (melted df value_vars)
  = negb (has_rows df) || forallb (is_date to_datetime) value_vars.
Proof.
  unfold melted.
  induction value_vars as [|label rest IH]; simpl;
    [now rewrite orb_true_r|].
  rewrite forallb_app, IH, melted_column_readable.
  destruct (has_rows df); destruct (is_date to_datetime label); reflexivity.
Qed.

Lemma long_frame_closed dates df :
  long_frame to_datetime dates df
  = if forallb (has_column df) dates
    then if negb (has_rows df) || forallb (is_date to_datetime) dates
         then Ok (converted to_datetime (melted df dates))
         else Raise ParseError
    else Raise KeyError.
Proof.
  unfold long_frame. rewrite melt_closed.
  destruct (forallb (has_column df) dates); simpl; [|reflexivity].
  now rewrite to_datetime_column_closed, melted_readable.
Qed.

Lemma missing_label_false c d r :
  missing_label c d r = false <->
  forallb (has_column d) (date_columns c) = true
  /\ forallb (has_column r) (date_columns c) = true.
Proof.
  unfold missing_label.
  induction (date_columns c) as [|label rest IH]; simpl; [tauto|].
  rewrite orb_false_iff, IH, !andb_true_iff, negb_false_iff, andb_true_iff.
  tauto.
Qed.

Lemma unreadable_label_false c :
  unreadable_label to_datetime c = false <->
  forallb (is_date to_datetime) (date_columns c) = true.
Proof.
  unfold unreadable_label.
  induction (date_columns c) as [|label rest IH]; simpl; [tauto|].
  rewrite orb_false_iff, IH, andb_true_iff, negb_false_iff. tauto.
Qed.

(** [full_data] in one piece: KeyError for a missing label, before any
    label is read as a date; ParseError for a label that is no date, when
    one of the three files has a line; the joined table otherwise. *)
Lemma full_data_closed c d r :
  full_data to_datetime c d r
  = if missing_label c d r then Raise KeyError
    else if unreadable_label to_datetime c
            && (has_rows c || has_rows d || has_rows r)
         then Raise ParseError
         else Ok (map fill_row
                    (merge_recovered
                       (merge_deaths
                          (converted to_datetime (melted c (date_columns c)))
                          (converted to_datetime (melted d (date_columns c))))
                       (converted to_datetime (melted r (date_columns c))))).
Proof.
  unfold full_data. rewrite melt_own_columns, !melt_closed.
  destruct (missing_label c d r) eqn:Hm.
  - destruct (forallb (has_column d) (date_columns c)) eqn:Hd; simpl;
      [|reflexivity].
    destruct (forallb (has_column r) (date_columns c)) eqn:Hr; simpl;
      [|reflexivity].
    assert (missing_label c d r = false) by (apply missing_label_false; auto).
    congruence.
  - apply missing_label_false in Hm. destruct Hm as [-> ->]. simpl.
    rewrite !to_datetime_column_closed, !melted_readable.
    destruct (unreadable_label to_datetime c) eqn:Hu.
    + assert (Hf : forallb (is_date to_datetime) (date_columns c) = false).
      { destruct (forallb (is_date to_datetime) (date_columns c)) eqn:E;
          [|reflexivity].
        apply unreadable_label_false in E. congruence. }
      rewrite Hf.
      destruct (has_rows c), (has_rows d), (has_rows r); reflexivity.
    + apply unreadable_label_false in Hu. rewrite Hu, !orb_true_r. reflexivity.
Qed.

Lemma load_data_of_full_data c d r :
  load_data to_datetime c d r
  = match full_data to_datetime c d r with
    | Ok full => Ok (add_derived (groupby_sum full))
    | Raise e => Raise e
    end.
Proof. reflexivity. Qed.

(** X1: [load_data] raises KeyError exactly when a date label of the
    confirmed frame is no column of the deaths frame or of the recovered
    frame.  The labels are looked up before any of them is read as a date:
    with a label missing, the error is KeyError also when a label is no
    date. *)
Theorem load_data_key_error_iff c d r :
  load_data to_datetime c d r = Raise KeyError <-> missing_label c d r = true.
Proof.
  rewrite load_data_of_full_data, full_data_closed.
  destruct (missing_label c d r); [tauto|].
  destruct (unreadable_label to_datetime c
            && (has_rows c || has_rows d || has_rows r));
    split; discriminate.
Qed.

(** X2: [load_data] raises ParseError exactly when no label is missing, a
    date label of the confirmed frame is no date and one of the three
    frames has a row.  Labels that are no dates go unnoticed when the three
    frames have no rows. *)
Theorem load_data_parse_error_iff c d r :
  load_data to_datetime c d r = Raise ParseError <->
  missing_label c d r = false
  /\ unreadable_label to_datetime c = true
  /\ (has_rows c || has_rows d || has_rows r) = true.
Proof.
  rewrite load_data_of_full_data, full_data_closed.
  destruct (missing_label c d r).
  - split; [discriminate | intros [H _]; discriminate].
  - destruct (unreadable_label to_datetime c); simpl.
    + destruct (has_rows c || has_rows d || has_rows r).
      * tauto.
      * split; [discriminate | intros (_ & _ & H); discriminate].
    + split; [discriminate | intros (_ & H & _); discriminate].
Qed.

End Raising.

(** * What the aggregation keeps and what the joins ignore *)




(** No row is dropped or repeated by a join whose keys have at most one
    partner: the joined table has a row per row and date column of the
    confirmed frame. *)
Lemma length_melted df value_vars :
  List.length (melted df value_vars)
  = (List.length value_vars * List.length (rows df))%nat.
Proof.
  unfold melted, melted_column.
  induction value_vars as [|label rest IH]; simpl; [reflexivity|].
  now rewrite length_app, length_map, IH.
Qed.















Section Ignored.

Variable to_datetime : string -> option Timestamp.

Lemma load_data_ok_inv c d r out :
  load_data to_datetime c d r = Ok out ->
  missing_label c d r = false
  /\ unreadable_label to_datetime c
     && (has_rows c || has_rows d || has_rows r) = false
  /\ out = add_derived (groupby_sum
             (map fill_row
                (merge_recovered
                   (merge_deaths
                      (converted to_datetime (melted c (date_columns c)))
                      (converted to_datetime (melted d (date_columns c))))
                   (converted to_datetime (melted r (date_columns c)))))).
Proof.
  rewrite load_data_of_full_data, full_data_closed.
  destruct (missing_label c d r); [discriminate|].
  destruct (unreadable_label to_datetime c
            && (has_rows c || has_rows d || has_rows r)); [discriminate|].
  intros [= <-]. auto.
Qed.

Lemma load_data_ok_readable c d r out :
  load_data to_datetime c d r = Ok out ->
  has_rows c = true ->
  forall label, In label (date_columns c) -> to_datetime label <> None.
Proof.
  intros H Hc label Hl. apply load_data_ok_inv in H.
  destruct H as (_ & H & _). rewrite Hc in H. simpl in H.
  rewrite andb_true_r in H. apply unreadable_label_false in H.
  rewrite forallb_forall in H. specialize (H _ Hl). unfold is_date in H.
  destruct (to_datetime label); [discriminate | discriminate].
Qed.




(** X6: the returned table is empty exactly when the confirmed frame has no
    date column or no row with a region. *)
Theorem output_empty_iff c d r out :
  load_data to_datetime c d r = Ok out ->
  (out = [] <->
   date_columns c = []
   \/ forallb (fun row => negb (has_region (ident row))) (rows c) = true).
Proof.
  intros Hout. split.
  - intros ->. destruct (date_columns c) as [|label rest] eqn:Hl; [now left|].
    right. apply forallb_forall. intros row Hrow.
    unfold has_region.
    destruct (Country_Region (ident row)) as [region|] eqn:Hreg;
      [|reflexivity].
    exfalso.
    assert (Hrows : has_rows c = true).
    { unfold has_rows. destruct (rows c); [destruct Hrow | reflexivity]. }
    pose proof (load_data_ok_readable _ _ _ _ Hout Hrows label) as Hp.
    rewrite Hl in Hp. specialize (Hp (or_introl eq_refl)).
    destruct (to_datetime label) as [t|] eqn:Ht; [|now apply Hp].
    assert (Hpair : confirmed_pair to_datetime c region t).
    { exists row, label. rewrite Hl. simpl. auto. }
    apply (output_keys _ _ _ _ _ _ _ Hout) in Hpair.
    destruct Hpair as (o & [] & _).
  - intros Hno. destruct out as [|o out']; [reflexivity|]. exfalso.
    assert (Hpair : confirmed_pair to_datetime c (Region o) (Date o)).
    { apply (output_keys _ _ _ _ _ _ _ Hout). exists o. simpl. auto. }
    destruct Hpair as (row & label & Hrow & Hreg & Hl & _).
    destruct Hno as [Hno|Hno].
    + rewrite Hno in Hl. destruct Hl.
    + rewrite forallb_forall in Hno. specialize (Hno _ Hrow).
      unfold has_region in Hno. rewrite Hreg in Hno. discriminate.
Qed.

(** X7: when no key of the long confirmed frame has two partners in the
    long deaths frame or in the long recovered frame, the joins neither
    drop nor repeat a row: [full_data] has one row for every row and date
    column of the confirmed frame. *)
Theorem full_data_row_count c d r cm dm rm full :
  long_frame to_datetime (date_columns c) c = Ok cm ->
  long_frame to_datetime (date_columns c) d = Ok dm ->
  long_frame to_datetime (date_columns c) r = Ok rm ->
  (forall x, In x cm -> at_most_one_partner (m_ident x) (m_date x) dm
                        /\ at_most_one_partner (m_ident x) (m_date x) rm) ->
  full_data to_datetime c d r = Ok full ->
  List.length full
  = (List.length (date_columns c) * List.length (rows c))%nat.
Proof.
  intros Hc Hd Hr Hone Hfull.
  rewrite (full_data_of_long _ _ _ _ _ _ _ Hc Hd Hr) in Hfull.
  injection Hfull as <-.
  pose proof (merged_one_to_one _ _ _ Hone) as Hmap.
  apply (f_equal (@List.length _)) in Hmap. rewrite !length_map in Hmap.
  rewrite length_map, Hmap.
  rewrite long_frame_closed in Hc.
  destruct (forallb (has_column c) (date_columns c)); [|discriminate].
  destruct (negb (has_rows c) || forallb (is_date to_datetime) (date_columns c));
    [|discriminate].
  injection Hc as <-. unfold converted. now rewrite length_map, length_melted.
Qed.

End Ignored.

(** * The list of countries and the selection *)

Lemma existsb_eqb_In v seen :
  existsb (String.eqb v) seen = true <-> In v seen.
Proof.
  rewrite existsb_exists. split.
  - intros (x & Hx & E). apply String.eqb_eq in E. now subst.
  - intros H. exists v. split; [exact H | apply String.eqb_refl].
Qed.

Lemma in_unique_from seen values v :
  In v (unique_from seen values) <-> In v values /\ ~ In v seen.
Proof.
  revert seen. induction values as [|x rest IH]; simpl; intros seen; [tauto|].
  destruct (existsb (String.eqb x) seen) eqn:E.
  - apply existsb_eqb_In in E. rewrite IH. split.
    + intros [H1 H2]. auto.
    + intros [[->|H1] H2]; [contradiction | auto].
  - assert (Hx : ~ In x seen).
    { intros H. apply existsb_eqb_In in H. congruence. }
    simpl. rewrite IH. simpl. split.
    + intros [<-|[H1 H2]]; [auto|]. split; [auto|]. intros H. apply H2. auto.
    + intros [[->|H1] H2]; [auto|].
      destruct (string_dec x v) as [->|Hne]; [auto|].
      right. split; [exact H1|]. intros [H|H]; [contradiction | contradiction].
Qed.

Lemma unique_from_NoDup seen values : NoDup (unique_from seen values).
Proof.
  revert seen. induction values as [|x rest IH]; simpl; intros seen;
    [constructor|].
  destruct (existsb (String.eqb x) seen); [apply IH|].
  constructor; [|apply IH].
  intros H. apply in_unique_from in H. destruct H as [_ H]. apply H. now left.
Qed.

Lemma unique_from_sorted seen values :
  StronglySorted string_le values ->
  StronglySorted string_lt (unique_from seen values).
Proof.
  intros Hs. revert seen.
  induction Hs as [|x rest Hs IH Hall]; simpl; intros seen; [constructor|].
  destruct (existsb (String.eqb x) seen); [apply IH|].
  constructor; [apply IH|].
  apply Forall_forall. intros y Hy. apply in_unique_from in Hy.
  destruct Hy as [Hy Hn]. rewrite Forall_forall in Hall.
  destruct (Hall _ Hy) as [->|Hlt]; [|exact Hlt].
  exfalso. apply Hn. now left.
Qed.

Lemma regions_sorted out :
  StronglySorted row_lt out -> StronglySorted string_le (map Region out).
Proof.
  induction 1 as [|o out Hs IH Hall]; simpl; constructor; [exact IH|].
  rewrite Forall_forall in *. intros s Hin. apply in_map_iff in Hin.
  destruct Hin as (x & <- & Hx). unfold string_le, string_lt.
  destruct (Hall _ Hx) as [H|[H _]]; auto.
Qed.

Lemma list_index_In value l :
  In value l -> exists k, list_index value l = Shown k.
Proof.
  induction l as [|x rest IH]; simpl; [tauto|].
  destruct (String.eqb x value) eqn:E; [eauto|].
  intros [->|H]; [now rewrite String.eqb_refl in E|].
  destruct (IH H) as [k ->]. simpl. eauto.
Qed.

(** the entry at the position that [index] returns is the value *)
Lemma list_index_nth value l k :
  list_index value l = Shown k ->
  (k < List.length l)%nat /\ nth k l EmptyString = value.
Proof.
  revert k. induction l as [|x rest IH]; simpl; [discriminate|].
  destruct (String.eqb x value) eqn:E.
  - intros k [= <-]. apply String.eqb_eq in E. split; [lia | exact E].
  - destruct (list_index value rest) as [j|e]; simpl; [|discriminate].
    intros k [= <-]. destruct (IH j eq_refl). split; [lia | assumption].
Qed.

Lemma list_index_fails value l e :
  list_index value l = Fails e -> e = ValueError /\ ~ In value l.
Proof.
  induction l as [|x rest IH]; simpl.
  - intros [= <-]. tauto.
  - destruct (String.eqb x value) eqn:E; [discriminate|].
    destruct (list_index value rest) as [j|e']; simpl; [discriminate|].
    intros [= <-]. destruct (IH eq_refl) as [He Hn]. split; [exact He|].
    intros [->|H]; [now rewrite String.eqb_refl in E | auto].
Qed.

Lemma in_country_list data region :
  In region (country_list data) <-> exists o, In o data /\ Region o = region.
Proof.
  unfold country_list, unique. rewrite in_unique_from, in_map_iff. simpl.
  split.
  - intros [(o & H1 & H2) _]. eauto.
  - intros (o & H1 & H2). split; [eauto | tauto].
Qed.

Lemma in_country_df data selected o :
  In o (country_df data selected) <-> In o data /\ Region o = selected.
Proof.
  unfold country_df. rewrite filter_In, String.eqb_eq. tauto.
Qed.

Lemma StronglySorted_filter {A : Type} (R : A -> A -> Prop) (p : A -> bool) l :
  StronglySorted R l -> StronglySorted R (filter p l).
Proof.
  induction 1 as [|a l Hs IH Hall]; simpl; [constructor|].
  destruct (p a); [|exact IH]. constructor; [exact IH|].
  rewrite Forall_forall in *. intros x Hx. apply filter_In in Hx.
  now apply Hall.
Qed.

Lemma StronglySorted_snoc {A : Type} (R : A -> A -> Prop) l z :
  StronglySorted R (l ++ [z]) -> forall x, In x l -> R x z.
Proof.
  induction l as [|a l IH]; simpl; [tauto|].
  intros H. apply StronglySorted_inv in H. destruct H as [Hs Hall].
  rewrite Forall_forall in Hall. intros x [<-|Hx].
  - apply Hall. apply in_or_app. right. now left.
  - now apply IH.
Qed.

(** The rows of one country go up in date. *)
Lemma country_df_sorted data selected :
  StronglySorted row_lt data ->
  StronglySorted date_lt (country_df data selected).
Proof.
  intros Hs. unfold country_df.
  induction Hs as [|o out Hs IH Hall]; simpl; [constructor|].
  destruct (String.eqb (Region o) selected) eqn:E; [|exact IH].
  apply String.eqb_eq in E. constructor; [exact IH|].
  rewrite Forall_forall in *. intros x Hx. apply filter_In in Hx.
  destruct Hx as [Hx Hr]. apply String.eqb_eq in Hr.
  destruct (Hall _ Hx) as [H|[_ H]]; [|exact H].
  rewrite E, Hr, string_compare_refl in H. discriminate.
Qed.

(** * The latest row, the raw table *)

Lemma last_cons_default {A : Type} (x : A) (l : list A) (d d' : A) :
  last (x :: l) d = last (x :: l) d'.
Proof.
  revert x. induction l as [|y l IH]; intros x; [reflexivity|].
  change (last (x :: y :: l) d) with (last (y :: l) d).
  change (last (x :: y :: l) d') with (last (y :: l) d').
  apply IH.
Qed.

Lemma date_max_sorted o rest :
  StronglySorted date_lt (o :: rest) ->
  fold_left Z.max (map Date rest) (Date o) = Date (last (o :: rest) o).
Proof.
  revert o. induction rest as [|x rest IH]; intros o Hs; [reflexivity|].
  apply StronglySorted_inv in Hs. destruct Hs as [Hs Hall].
  assert (Hox : Date o < Date x).
  { rewrite Forall_forall in Hall. apply Hall. now left. }
  cbn [map fold_left]. rewrite Z.max_r by lia. rewrite (IH x Hs).
  change (last (o :: x :: rest) o) with (last (x :: rest) o).
  now rewrite (last_cons_default x rest x o).
Qed.

Lemma latest_is_last frame z :
  StronglySorted date_lt (frame ++ [z]) ->
  latest_data (frame ++ [z]) = [z].
Proof.
  intros Hs. pose proof Hs as Hs'. unfold latest_data, date_max.
  destruct (frame ++ [z]) as [|o rest] eqn:E;
    [now destruct frame|].
  rewrite (date_max_sorted _ _ Hs'), <- E. rewrite <- E in Hs.
  assert (Hlast : last (frame ++ [z]) o = z) by apply last_last.
  rewrite Hlast, filter_app. simpl. rewrite Z.eqb_refl.
  rewrite filter_all_false; [reflexivity|].
  intros x Hx. apply (StronglySorted_snoc _ _ _ Hs) in Hx.
  unfold date_lt in Hx. apply Z.eqb_neq. lia.
Qed.

Lemma insert_descending_oldest o sorted :
  (forall x, In x sorted -> Date o < Date x) ->
  insert_descending o sorted = sorted ++ [o].
Proof.
  induction sorted as [|x rest IH]; simpl; intros H; [reflexivity|].
  assert (Date o < Date x) by (apply H; now left).
  replace (Date x <? Date o) with false by (symmetry; apply Z.ltb_ge; lia).
  f_equal. apply IH. intros y Hy. apply H. now right.
Qed.

Lemma sort_descending_of_ascending frame :
  StronglySorted date_lt frame ->
  sort_values_date_descending frame = rev frame.
Proof.
  unfold sort_values_date_descending.
  induction 1 as [|o rest Hs IH Hall]; simpl; [reflexivity|].
  rewrite IH. apply insert_descending_oldest.
  rewrite Forall_forall in Hall. intros x Hx. apply in_rev in Hx.
  now apply Hall.
Qed.

(** * New Cases along the rows of a country *)







(** * The page on the table of [load_data] *)

Section OnThePage.

Variable to_datetime : string -> option Timestamp.

Lemma country_list_regions c d r data region :
  load_data to_datetime c d r = Ok data ->
  (In region (country_list data) <->
   region_present c region /\ date_columns c <> []).
Proof.
  intros Hout. rewrite in_country_list. split.
  - intros (o & Ho & <-).
    assert (Hp : confirmed_pair to_datetime c (Region o) (Date o))
      by (apply (output_keys _ _ _ _ _ _ _ Hout); eauto).
    destruct Hp as (row & label & Hrow & Hreg & Hl & _).
    split; [exists row; auto|]. intros E. rewrite E in Hl. destruct Hl.
  - intros [(row & Hrow & Hreg) Hl].
    destruct (date_columns c) as [|label rest] eqn:E; [congruence|].
    assert (Hrows : has_rows c = true).
    { unfold has_rows. destruct (rows c); [destruct Hrow | reflexivity]. }
    pose proof (load_data_ok_readable _ _ _ _ _ Hout Hrows label) as Hp.
    rewrite E in Hp. specialize (Hp (or_introl eq_refl)).
    destruct (to_datetime label) as [t|] eqn:Ht; [|now destruct Hp].
    assert (Hpair : confirmed_pair to_datetime c region t).
    { exists row, label. rewrite E. simpl. auto. }
    apply (output_keys _ _ _ _ _ _ _ Hout) in Hpair.
    destruct Hpair as (o & Ho & Hr & _). eauto.
Qed.

(** X8: the select box offers every region of the confirmed frame once, in
    alphabetical order: the entries are the regions that a row of the
    confirmed frame has (none when the frame has no date column), no entry
    comes twice, and they go up in the order of strings. *)
Theorem countries_listed_once_in_order c d r data :
  load_data to_datetime c d r = Ok data ->
  NoDup (country_list data)
  /\ StronglySorted string_lt (country_list data)
  /\ (forall region, In region (country_list data) <->
                     region_present c region /\ date_columns c <> []).
Proof.
  intros Hout. split; [apply unique_from_NoDup|]. split.
  - apply unique_from_sorted, regions_sorted.
    eapply load_data_sorted; eauto.
  - intros region. eapply country_list_regions; eauto.
Qed.

Lemma page_after_index data pick show_raw k :
  list_index "India" (country_list data) = Shown k ->
  page data pick show_raw <> Fails ValueError.
Proof.
  intros E. unfold page. rewrite E. simpl.
  destruct (latest_data
              (country_df data (selectbox (country_list data) k pick)));
    simpl; discriminate.
Qed.

(** X9: the page stops with ValueError exactly when India is no region of
    the confirmed frame, or the frame has no date column: the position of
    India in the list of countries is looked up before anything is shown,
    whatever the user picks. *)
Theorem page_fails_without_india c d r data pick show_raw :
  load_data to_datetime c d r = Ok data ->
  (page data pick show_raw = Fails ValueError <->
   ~ (region_present c "India" /\ date_columns c <> [])).
Proof.
  intros Hout. rewrite <- (country_list_regions _ _ _ _ _ Hout).
  destruct (list_index "India" (country_list data)) as [k|e] eqn:E.
  - split.
    + intros H. now destruct (page_after_index data pick show_raw k E).
    + intros H. exfalso. apply H.
      destruct (list_index_nth _ _ _ E) as [Hk <-]. now apply nth_In.
  - destruct (list_index_fails _ _ _ E) as [-> Hn].
    split; [auto|]. intros _. unfold page. now rewrite E.
Qed.

(** X10: when India is in the list and the pick of the user is an entry of
    the list, the page is shown: the country is India as long as the user
    picked none, and the four tiles hold Confirmed, Deaths, Recovered and
    Active of the row of that country with the greatest date.  No IndexError
    comes up. *)
Theorem page_shows_latest_row c d r data pick show_raw :
  load_data to_datetime c d r = Ok data ->
  In "India"%string (country_list data) ->
  (forall k, pick = Some k -> (k < List.length (country_list data))%nat) ->
  exists p latest,
    page data pick show_raw = Shown p
    /\ In (selected_country p) (country_list data)
    /\ (pick = None -> selected_country p = "India"%string)
    /\ In latest data
    /\ Region latest = selected_country p
    /\ (forall o, In o data -> Region o = selected_country p ->
                  Date o <= Date latest)
    /\ metrics p = mkMetrics (Confirmed latest) (Deaths latest)
                             (Recovered latest) (Active latest)
    /\ charted p = country_df data (selected_country p).
Proof.
  intros Hout Hindia Hpick.
  destruct (list_index_In _ _ Hindia) as [k0 Hk0].
  destruct (list_index_nth _ _ _ Hk0) as [Hlt Hnth].
  set (selected := selectbox (country_list data) k0 pick).
  assert (Hsel : In selected (country_list data)).
  { unfold selected, selectbox. apply nth_In.
    destruct pick as [k|]; [now apply Hpick | exact Hlt]. }
  assert (Hne : country_df data selected <> []).
  { apply in_country_list in Hsel. destruct Hsel as (o & Ho & Hr).
    intros E. assert (Hin : In o (country_df data selected))
      by (apply in_country_df; auto).
    rewrite E in Hin. destruct Hin. }
  destruct (exists_last Hne) as (older & z & Hframe).
  assert (Hs : StronglySorted date_lt (older ++ [z])).
  { rewrite <- Hframe. apply country_df_sorted.
    eapply load_data_sorted; eauto. }
  assert (Hz : In z (country_df data selected)).
  { rewrite Hframe. apply in_or_app. right. now left. }
  apply in_country_df in Hz. destruct Hz as [Hzin Hzreg].
  eexists. exists z. split.
  - assert (Hlatest : latest_data (country_df data selected) = [z])
      by (rewrite Hframe; now apply latest_is_last).
    unfold page. rewrite Hk0. cbn [and_then]. fold selected.
    rewrite Hlatest. cbn [map iloc0 and_then]. reflexivity.
  - cbn [selected_country metrics charted]. repeat split; auto.
    + intros ->. unfold selected, selectbox. exact Hnth.
    + intros o Ho Hr.
      assert (Hin : In o (country_df data selected))
        by (apply in_country_df; auto).
      rewrite Hframe in Hin. apply in_app_or in Hin.
      destruct Hin as [Hin|[<-|[]]]; [|lia].
      apply (StronglySorted_snoc _ _ _ Hs) in Hin. unfold date_lt in Hin. lia.
Qed.




(** X13: the raw table shows the rows of the country from the newest date
    to the oldest: sorted by Date downwards, the frame of the country is the
    frame read backwards. *)
Theorem raw_table_is_newest_first c d r data region :
  load_data to_datetime c d r = Ok data ->
  sort_values_date_descending (country_df data region)
  = rev (country_df data region).
Proof.
  intros Hout. apply sort_descending_of_ascending, country_df_sorted.
  eapply load_data_sorted; eauto.
Qed.

End OnThePage.

(** * The page and the errors on the data sets *)

Example world_load_data :
  load_data mdy_to_datetime world_confirmed world_deaths world_recovered
  = Ok world_out.
Proof. vm_compute. reflexivity. Qed.

(** India is the country of the page until the user picks another one. *)
Example world_page_metrics :
  exists p,
    page world_out None false = Shown p
    /\ selected_country p = "India"%string
    /\ metrics p = mkMetrics 3 0 1 2
    /\ skipn 12 (rolling_avg p) = [None; Some (3 # 14)%Q; Some (3 # 14)%Q].
Proof. eexists. split; [vm_compute; reflexivity|]. repeat split. Qed.

(** The small data set has no row for India. *)
Example sample_page_fails : page sample_out None false = Fails ValueError.
Proof. reflexivity. Qed.

(** A missing label is reported before a label that is no date. *)
Example key_error_comes_first :
  load_data mdy_to_datetime
    (mkDataFrame ["not a date"%string; "1/24/20"%string] [mkRawRow austria []])
    sample_deaths sample_recovered
  = Raise KeyError.
Proof. vm_compute. reflexivity. Qed.

Example unreadable_label_in_empty_frames :
  load_data mdy_to_datetime
    (mkDataFrame ["not a date"%string] [])
    (mkDataFrame ["not a date"%string] [])
    (mkDataFrame ["not a date"%string] [])
  = Ok [].
Proof. vm_compute. reflexivity. Qed.




Lemma output_empty_header_only :
  @nil CountryDay = [] <->
  date_columns header_only = []
  \/ forallb (fun row => negb (has_region (ident row))) (rows header_only)
     = true.
Proof.
  apply (output_empty_iff mdy_to_datetime header_only header_only header_only).
  vm_compute. reflexivity.
Defined.

Lemma full_data_row_count_sample :
  List.length sample_full
  = (List.length two_days * List.length (rows sample_confirmed))%nat.
Proof.
  apply (full_data_row_count mdy_to_datetime
           sample_confirmed sample_deaths sample_recovered
           sample_cm sample_dm sample_rm).
  - vm_compute. reflexivity.
  - vm_compute. reflexivity.
  - vm_compute. reflexivity.
  - intros x Hx. unfold sample_cm in Hx.
    repeat (destruct Hx as [<- | Hx]; [split; vm_compute; lia | ]).
    destruct Hx.
  - vm_compute. reflexivity.
Defined.

Lemma countries_listed_world :
  NoDup (country_list world_out)
  /\ StronglySorted string_lt (country_list world_out)
  /\ (forall region, In region (country_list world_out) <->
                     region_present world_confirmed region
                     /\ date_columns world_confirmed <> []).
Proof.
  apply (countries_listed_once_in_order mdy_to_datetime
           world_confirmed world_deaths world_recovered).
  vm_compute. reflexivity.
Defined.

Lemma page_fails_on_sample :
  page sample_out None false = Fails ValueError <->
  ~ (region_present sample_confirmed "India"
     /\ date_columns sample_confirmed <> []).
Proof.
  apply (page_fails_without_india mdy_to_datetime
           sample_confirmed sample_deaths sample_recovered).
  vm_compute. reflexivity.
Defined.

Lemma page_shows_latest_row_world :
  exists p latest,
    page world_out (Some 0%nat) true = Shown p
    /\ In (selected_country p) (country_list world_out)
    /\ (Some 0%nat = None -> selected_country p = "India"%string)
    /\ In latest world_out
    /\ Region latest = selected_country p
    /\ (forall o, In o world_out -> Region o = selected_country p ->
                  Date o <= Date latest)
    /\ metrics p = mkMetrics (Confirmed latest) (Deaths latest)
                             (Recovered latest) (Active latest)
    /\ charted p = country_df world_out (selected_country p).
Proof.
  apply (page_shows_latest_row mdy_to_datetime
           world_confirmed world_deaths world_recovered).
  - vm_compute. reflexivity.
  - vm_compute. auto.
  - intros k [= <-]. vm_compute. lia.
Defined.



Lemma raw_table_world :
  sort_values_date_descending (country_df world_out "India")
  = rev (country_df world_out "India").
Proof.
  apply (raw_table_is_newest_first mdy_to_datetime
           world_confirmed world_deaths world_recovered).
  vm_compute. reflexivity.
Defined.

(** * Keys without the contract, the latest row of any frame *)

(** X14: whenever [load_data] returns, with or without the contract, the
    keys of its table are those of the confirmed frame: the table has a row
    for a region and a date exactly when a row of the confirmed frame has
    the region and a date label of it denotes the date, and it has one row
    only.  The deaths and the recovered frame add no key and take none
    away. *)
Theorem output_keys_are_confirmed_keys
    (to_datetime : string -> option Timestamp) c d r out region t :
  load_data to_datetime c d r = Ok out ->
  ((exists o, In o out /\ Region o = region /\ Date o = t)
   <-> confirmed_pair to_datetime c region t)
  /\ (List.length (rows_with_key region t out) <= 1)%nat.
Proof.
  intros Hout. split; [now apply output_keys with (d := d) (r := r)|].
  pose proof (load_data_sorted _ _ _ _ _ Hout) as Hs.
  destruct (rows_with_key region t out) as [|o rest] eqn:E; [simpl; lia|].
  assert (Ho : In o (rows_with_key region t out)) by (rewrite E; now left).
  unfold rows_with_key in Ho. apply filter_In in Ho.
  destruct Ho as [Ho Hk]. apply andb_true_iff in Hk. destruct Hk as [Hr Ht].
  apply String.eqb_eq in Hr. apply Z.eqb_eq in Ht. subst region t.
  rewrite (rows_with_key_single _ _ Hs Ho) in E. injection E as <-.
  simpl. lia.
Qed.

Lemma fold_max_bounds l a :
  a <= fold_left Z.max l a
  /\ (forall x, In x l -> x <= fold_left Z.max l a)
  /\ (fold_left Z.max l a = a \/ In (fold_left Z.max l a) l).
Proof.
  revert a. induction l as [|x l IH]; simpl; intros a.
  - split; [lia|]. split; [tauto | auto].
  - destruct (IH (Z.max a x)) as (H1 & H2 & H3). split; [lia|]. split.
    + intros y [<-|Hy]; [lia | auto].
    + destruct H3 as [H3|H3]; [|auto].
      destruct (Z.max_spec a x) as [[_ E]|[_ E]]; rewrite H3, E; auto.
Qed.

(** X15: on any frame that has a row, the rows of the latest date are
    there and [iloc[0]] takes the first of them: a row of the frame with
    the greatest date.  On a frame without rows the latest date is NaT, no
    row has it and [iloc[0]] raises IndexError. *)
Theorem latest_row_of_any_frame (frame : list CountryDay) :
  (frame = [] -> iloc0 (latest_data frame) = Fails IndexError)
  /\ (frame <> [] ->
      exists z, iloc0 (latest_data frame) = Shown z
                /\ In z frame
                /\ forall o, In o frame -> Date o <= Date z).
Proof.
  split; [intros ->; reflexivity|].
  destruct frame as [|o rest]; [congruence|]. intros _.
  unfold latest_data, date_max.
  set (m := fold_left Z.max (map Date rest) (Date o)).
  destruct (fold_max_bounds (map Date rest) (Date o)) as (H1 & H2 & H3).
  fold m in H1, H2, H3.
  assert (Hex : exists x, In x (o :: rest) /\ Date x = m).
  { destruct H3 as [H3|H3]; [exists o; simpl; auto|].
    apply in_map_iff in H3. destruct H3 as (x & Hx & Hin).
    exists x. simpl. auto. }
  destruct Hex as (x & Hx & Hd).
  assert (Hin : In x (filter (fun o0 => Date o0 =? m) (o :: rest))).
  { apply filter_In. split; [exact Hx | now apply Z.eqb_eq]. }
  destruct (filter (fun o0 => Date o0 =? m) (o :: rest)) as [|z zs] eqn:E;
    [destruct Hin|].
  assert (Hz : In z (filter (fun o0 => Date o0 =? m) (o :: rest)))
    by (rewrite E; now left).
  apply filter_In in Hz. destruct Hz as [Hz Hzd]. apply Z.eqb_eq in Hzd.
  exists z. split; [reflexivity|]. split; [exact Hz|].
  intros y [<-|Hy]; rewrite Hzd; [exact H1|].
  apply H2. now apply in_map.
Qed.

Lemma output_keys_world :
  ((exists o, In o world_out /\ Region o = "India"%string /\ Date o = 18283)
   <-> confirmed_pair mdy_to_datetime world_confirmed "India" 18283)
  /\ (List.length (rows_with_key "India" 18283%Z world_out) <= 1)%nat.
Proof.
  apply (output_keys_are_confirmed_keys mdy_to_datetime
           world_confirmed world_deaths world_recovered).
  vm_compute. reflexivity.
Defined.
